(** * Reservation booking handler (task12/app/lambdas/api_handler/index.js)

    A shallow embedding of [handleCreateReservation] and of the helpers it
    calls, together with the properties of its conflict check.

    The handler runs against two DynamoDB tables.  Every call it makes to the
    document client is recorded, so that "no scan" and "no write" are
    statements about the recorded calls; the tables themselves are lists of
    items in scan order, keyed by the attribute [id].  A scan is the single
    call the source makes: it reads one page, of at most 1 MB, and filters
    it. *)

From Stdlib Require Import ZArith List String Ascii Bool Lia DecimalString.
Import ListNotations.
Local Open Scope string_scope.
Local Open Scope list_scope.

(** ** JavaScript values of a parsed JSON body *)

Module JS.

(** The scalar values a field of [JSON.parse(event.body)] can hold;
    [Undefined] is what destructuring gives for a field that is absent.
    Numbers are the integer-valued ones. *)
Inductive value : Type :=
| Undefined
| Null
| Bool (b : bool)
| Num (n : Z)
| Str (s : string).

(** ToBoolean: what [!x] negates. *)
Definition truthy (v : value) : bool :=
  match v with
  | Undefined | Null => false
  | Bool b => b
  | Num n => negb (Z.eqb n 0)
  | Str s => negb (String.eqb s EmptyString)
  end.

End JS.
Import JS.

(** ** Filter expressions and tables of the store *)

Module DynamoDB.

(** [a = b] in a FilterExpression: both attributes present, of the same
    type, with the same value. *)
Definition attr_eq (a b : value) : bool :=
  match a, b with
  | Null, Null => true
  | Bool x, Bool y => Bool.eqb x y
  | Num x, Num y => Z.eqb x y
  | Str x, Str y => String.eqb x y
  | _, _ => false
  end.

(** [a <= b] on attributes: numbers by value, strings in the order of
    their characters' codes; no order between values of different types. *)
Definition attr_le (a b : value) : bool :=
  match a, b with
  | Num x, Num y => Z.leb x y
  | Str x, Str y => String.leb x y
  | _, _ => false
  end.

(** The pairs of values [attr_le] orders: two numbers or two strings. *)
Definition comparable (a b : value) : bool :=
  match a, b with
  | Num _, Num _ | Str _, Str _ => true
  | _, _ => false
  end.

(** [a BETWEEN lo AND hi]: inclusive at both ends. *)
Definition between (a lo hi : value) : bool :=
  attr_le lo a && attr_le a hi.

(** The size of an item, in bytes, as the store counts it against the page of
    a scan. *)
Class Sized (Item : Type) : Type := size : Item -> N.

Section Table.
Context {Item : Type} {sized : Sized Item} (key : Item -> string).

(** What a scan reads of a table with [budget] bytes left: the items from the
    start of the table, as long as their sizes fit. *)
Fixpoint read (budget : N) (tbl : list Item) : list Item :=
  match tbl with
  | [] => []
  | x :: rest =>
      if (size x <=? budget)%N then x :: read (budget - size x) rest
      else []
  end.

(** The first page of a table: at most 1 MB of items. *)
Definition page (tbl : list Item) : list Item := read 1048576 tbl.

(** [scan] with a FilterExpression, called once: the items of the first page
    that satisfy it, in the order the table yields them.  The filter is
    applied to what has been read, and [LastEvaluatedKey] is not followed. *)
Definition scan (keep : Item -> bool) (tbl : list Item) : list Item :=
  filter keep (page tbl).

(** [put]: the item replaces the one stored under the same key, or is
    added to the table. *)
Fixpoint put (it : Item) (tbl : list Item) : list Item :=
  match tbl with
  | [] => [it]
  | x :: rest =>
      if String.eqb (key x) (key it) then it :: rest
      else x :: put it rest
  end.
End Table.

End DynamoDB.
Import DynamoDB.

(** ** Items, requests and responses *)

Module TableItem.
(** An item of TABLES_TABLE, as [handleCreateTable] writes it. *)
Record t : Type := Build
  { id : string;
    number : value;
    places : value;
    isVip : value;
    minOrder : value }.
End TableItem.

Module Reservation.
(** An item of RESERVATIONS_TABLE, as built at lines 312-323. *)
Record t : Type := Build
  { id : string;
    tableId : string;
    tableNumber : value;
    clientName : value;
    phoneNumber : value;
    username : value;
    date : value;
    time : value;
    slotTimeEnd : value;
    createdAt : string }.
End Reservation.

Module Body.
(** The six fields destructured from the parsed body (line 270). *)
Record t : Type := Build
  { tableNumber : value;
    clientName : value;
    phoneNumber : value;
    date : value;
    slotTimeStart : value;
    slotTimeEnd : value }.
End Body.

Module Event.
(** [claims]: [None] when [event.requestContext.authorizer.claims] is
    missing, otherwise its entry ['cognito:username'].
    [body]: [None] when [JSON.parse(event.body)] throws or does not give
    something that can be destructured, otherwise the fields read. *)
Record t : Type := Build
  { claims : option value;
    body : option Body.t }.
End Event.

Module Response.
(** [body] is the object handed to [JSON.stringify], field by field. *)
Record t : Type := Build
  { statusCode : Z;
    headers : list (string * string);
    body : list (string * value) }.
End Response.

(** ** The size of the items *)

Module ItemSize.

(** The bytes of a string. *)
Definition bytes (s : string) : N := N.of_nat (String.length s).

(** The digits of a number that count: those of its decimal writing, without
    the zeros it ends with. *)
Fixpoint without_trailing_zeros (fuel : nat) (n : Z) : Z :=
  match fuel with
  | O => n
  | S k => if (0 <? n)%Z && (n mod 10 =? 0)%Z
           then without_trailing_zeros k (n / 10)%Z else n
  end.

Definition significant_digits (n : Z) : N :=
  let m := Z.abs n in
  bytes (NilZero.string_of_int
           (Z.to_int (without_trailing_zeros (Z.to_nat (Z.log2 m)) m))).

(** An attribute counts for its name and its value: a string for its bytes,
    a number for one byte per two significant digits and one more, a boolean
    or null for one byte.  An attribute that is [undefined] is not stored. *)
Definition attribute (name : string) (v : value) : N :=
  match v with
  | Undefined => 0
  | Null | Bool _ => bytes name + 1
  | Num n => bytes name + (significant_digits n + 1) / 2 + 1
  | Str s => bytes name + bytes s
  end.

Definition table_item (t : TableItem.t) : N :=
  attribute "id" (Str (TableItem.id t))
  + attribute "number" (TableItem.number t)
  + attribute "places" (TableItem.places t)
  + attribute "isVip" (TableItem.isVip t)
  + attribute "minOrder" (TableItem.minOrder t).

Definition reservation (r : Reservation.t) : N :=
  attribute "id" (Str (Reservation.id r))
  + attribute "tableId" (Str (Reservation.tableId r))
  + attribute "tableNumber" (Reservation.tableNumber r)
  + attribute "clientName" (Reservation.clientName r)
  + attribute "phoneNumber" (Reservation.phoneNumber r)
  + attribute "username" (Reservation.username r)
  + attribute "date" (Reservation.date r)
  + attribute "time" (Reservation.time r)
  + attribute "slotTimeEnd" (Reservation.slotTimeEnd r)
  + attribute "createdAt" (Str (Reservation.createdAt r)).

End ItemSize.

#[global] Instance TableItem_sized : Sized TableItem.t := ItemSize.table_item.
#[global] Instance Reservation_sized : Sized Reservation.t :=
  ItemSize.reservation.

(** ** The store, the calls made to it, and the runtime *)

Record Db : Type :=
  { TABLES_TABLE : list TableItem.t;
    RESERVATIONS_TABLE : list Reservation.t }.

(** The calls [handleCreateReservation] makes on the document client, with
    the ExpressionAttributeValues (or the Item) they carry. *)
Inductive Call : Type :=
| ScanTables (tableNumber : value)
| ScanReservations (tableId : string) (date start finish : value)
| PutReservation (item : Reservation.t).

Record World : Type :=
  { db : Db;
    calls : list Call }.

(** What the handler draws from outside: the identifier [uuidv4()] returns,
    the instant [new Date().toISOString()] reads, and whether the store
    answers a call or rejects the promise. *)
Record Runtime : Type :=
  { uuidv4 : string;
    toISOString : string;
    store_ok : Call -> bool }.

(** ** Computations that may throw *)

Inductive Completion (A : Type) : Type :=
| Normal (a : A)
| Throw.
Arguments Normal {A} a.
Arguments Throw {A}.

Definition M (A : Type) : Type := World -> Completion A * World.

Definition ret {A} (a : A) : M A := fun w => (Normal a, w).

Definition throw {A} : M A := fun w => (Throw, w).

Definition bind {A B} (m : M A) (k : A -> M B) : M B :=
  fun w =>
    match m w with
    | (Normal a, w') => k a w'
    | (Throw, w') => (Throw, w')
    end.

Notation "x <- m ;; k" := (bind m (fun x => k))
  (at level 61, m at next level, right associativity).

(** [try { m } catch (error) { return h }] around a body that returns. *)
Definition try_catch {A} (m : M A) (h : A) : World -> A * World :=
  fun w =>
    match m w with
    | (Normal a, w') => (a, w')
    | (Throw, w') => (h, w')
    end.

Definition record_call (c : Call) (w : World) : World :=
  {| db := db w; calls := calls w ++ [c] |}.

Definition is_write (c : Call) : bool :=
  match c with
  | PutReservation _ => true
  | _ => false
  end.

(** ** The source functions *)

Definition corsHeaders : list (string * string) :=
  [ ("Access-Control-Allow-Headers",
     "Content-Type,X-Amz-Date,Authorization,X-Api-Key,X-Amz-Security-Token");
    ("Access-Control-Allow-Origin", "*");
    ("Access-Control-Allow-Methods", "*");
    ("Accept-Version", "*") ].

Definition formatResponse (statusCode : Z) (body : list (string * value))
  : Response.t :=
  {| Response.statusCode := statusCode;
     Response.headers := corsHeaders;
     Response.body := body |}.

Definition getUsernameFromToken (event : Event.t) : value :=
  match Event.claims event with
  | Some username => username
  | None => Null
  end.

Definition JSON_parse (body : option Body.t) : M Body.t :=
  match body with
  | Some b => ret b
  | None => throw
  end.

(** "#num = :tableNumber" *)
Definition tableParams (tableNumber : value) (table : TableItem.t) : bool :=
  attr_eq (TableItem.number table) tableNumber.

(** "tableId = :tableId AND #date = :date AND
     (#time BETWEEN :start AND :end OR :start BETWEEN #time AND slotTimeEnd)" *)
Definition reservationCheckParams (tableId : string) (date start finish : value)
           (r : Reservation.t) : bool :=
  String.eqb (Reservation.tableId r) tableId
  && attr_eq (Reservation.date r) date
  && (between (Reservation.time r) start finish
      || between start (Reservation.time r) (Reservation.slotTimeEnd r)).

Definition scan_tables (rt : Runtime) (tableNumber : value)
  : M (list TableItem.t) :=
  fun w =>
    let c := ScanTables tableNumber in
    if store_ok rt c
    then (Normal (scan (tableParams tableNumber) (TABLES_TABLE (db w))),
          record_call c w)
    else (Throw, record_call c w).

(** The conflict scan.  Both bounds of [#time BETWEEN :start AND :end] come
    with the request, and the store refuses the expression unless they are of
    one ordered type with [:start <= :end]. *)
Definition scan_reservations (rt : Runtime) (tableId : string)
           (date start finish : value) : M (list Reservation.t) :=
  fun w =>
    let c := ScanReservations tableId date start finish in
    if store_ok rt c && attr_le start finish
    then (Normal (scan (reservationCheckParams tableId date start finish)
                       (RESERVATIONS_TABLE (db w))),
          record_call c w)
    else (Throw, record_call c w).

Definition put_reservation (rt : Runtime) (item : Reservation.t) : M unit :=
  fun w =>
    let c := PutReservation item in
    if store_ok rt c
    then (Normal tt,
          {| db := {| TABLES_TABLE := TABLES_TABLE (db w);
                      RESERVATIONS_TABLE :=
                        put Reservation.id item (RESERVATIONS_TABLE (db w)) |};
             calls := calls w ++ [c] |})
    else (Throw, record_call c w).

Definition unauthorized : Response.t :=
  formatResponse 401 [("message", Str "Unauthorized")].

Definition fields_required : Response.t :=
  formatResponse 400
    [("message",
      Str "Table number, date, slotTimeStart, and slotTimeEnd are required")].

Definition table_not_found : Response.t :=
  formatResponse 400 [("message", Str "Table not found")].

Definition already_reserved : Response.t :=
  formatResponse 400
    [("message",
      Str "Table is already reserved for the selected date and time")].

Definition created (reservationId : string) : Response.t :=
  formatResponse 200
    [("reservationId", Str reservationId);
     ("message", Str "Reservation created successfully")].

Definition internal_server_error : Response.t :=
  formatResponse 500 [("message", Str "Internal Server Error")].

(** The reservation object of lines 312-323. *)
Definition reservation_of (rt : Runtime) (username : value)
           (table : TableItem.t) (b : Body.t) : Reservation.t :=
  {| Reservation.id := uuidv4 rt;
     Reservation.tableId := TableItem.id table;
     Reservation.tableNumber := TableItem.number table;
     Reservation.clientName := Body.clientName b;
     Reservation.phoneNumber := Body.phoneNumber b;
     Reservation.username := username;
     Reservation.date := Body.date b;
     Reservation.time := Body.slotTimeStart b;
     Reservation.slotTimeEnd := Body.slotTimeEnd b;
     Reservation.createdAt := toISOString rt |}.

Definition handleCreateReservation (rt : Runtime) (event : Event.t)
  : World -> Response.t * World :=
  try_catch
    (let username := getUsernameFromToken event in
     if negb (truthy username) then ret unauthorized
     else
       b <- JSON_parse (Event.body event) ;;
       if negb (truthy (Body.tableNumber b))
          || negb (truthy (Body.date b))
          || negb (truthy (Body.slotTimeStart b))
          || negb (truthy (Body.slotTimeEnd b))
       then ret fields_required
       else
         tableResult <- scan_tables rt (Body.tableNumber b) ;;
         match tableResult with
         | [] => ret table_not_found
         | table :: _ =>
             let tableId := TableItem.id table in
             existingReservations <-
               scan_reservations rt tableId (Body.date b)
                                 (Body.slotTimeStart b) (Body.slotTimeEnd b) ;;
             if Nat.ltb 0 (List.length existingReservations)
             then ret already_reserved
             else
               let reservation := reservation_of rt username table b in
               _ <- put_reservation rt reservation ;;
               ret (created (Reservation.id reservation))
         end)
    internal_server_error.

(** ** The conflict check, and the overlap rule it is meant to decide *)

(** The reservations the conflict scan of lines 292-306 returns for the
    request [b] once its table number has resolved to [table]. *)
Definition existingReservations (w : World) (table : TableItem.t) (b : Body.t)
  : list Reservation.t :=
  scan (reservationCheckParams (TableItem.id table) (Body.date b)
                               (Body.slotTimeStart b) (Body.slotTimeEnd b))
       (RESERVATIONS_TABLE (db w)).

(** The overlap rule in the words of the specification:
    existing.start <= candidate.end AND candidate.start <= existing.end. *)
Definition overlap (r : Reservation.t) (start finish : value) : bool :=
  attr_le (Reservation.time r) finish
  && attr_le start (Reservation.slotTimeEnd r).

(** What the filter tests instead: the existing start lies in the candidate's
    range, or the candidate's start lies in the existing range. *)
Definition start_within (r : Reservation.t) (start finish : value) : bool :=
  between (Reservation.time r) start finish
  || between start (Reservation.time r) (Reservation.slotTimeEnd r).

(** An existing reservation on the candidate's table and date. *)
Definition same_slot_day (table : TableItem.t) (b : Body.t)
           (r : Reservation.t) : bool :=
  String.eqb (Reservation.tableId r) (TableItem.id table)
  && attr_eq (Reservation.date r) (Body.date b).

(** A range whose start does not come after its end. *)
Definition well_formed (start finish : value) : bool := attr_le start finish.

(** The request is authorized, carries its four required fields, its table
    scan is answered with [table] as first match, and its conflict scan is
    answered (the store takes the call, and the bounds of the BETWEEN are in
    order): control reaches line 307. *)
Definition resolved (rt : Runtime) (event : Event.t) (w : World)
           (b : Body.t) (table : TableItem.t) : Prop :=
  truthy (getUsernameFromToken event) = true
  /\ Event.body event = Some b
  /\ truthy (Body.tableNumber b) = true
  /\ truthy (Body.date b) = true
  /\ truthy (Body.slotTimeStart b) = true
  /\ truthy (Body.slotTimeEnd b) = true
  /\ store_ok rt (ScanTables (Body.tableNumber b)) = true
  /\ hd_error (scan (tableParams (Body.tableNumber b))
                    (TABLES_TABLE (db w))) = Some table
  /\ store_ok rt (ScanReservations (TableItem.id table) (Body.date b)
                                   (Body.slotTimeStart b)
                                   (Body.slotTimeEnd b)) = true
  /\ well_formed (Body.slotTimeStart b) (Body.slotTimeEnd b) = true.

(** The world once both scans have been made. *)
Definition scanned (w : World) (table : TableItem.t) (b : Body.t) : World :=
  record_call (ScanReservations (TableItem.id table) (Body.date b)
                                (Body.slotTimeStart b) (Body.slotTimeEnd b))
              (record_call (ScanTables (Body.tableNumber b)) w).

(** Some stored reservation on the candidate's table and date passes [test]
    against the candidate's times. *)
Definition conflicting (w : World) (table : TableItem.t) (b : Body.t)
           (test : Reservation.t -> value -> value -> bool) : Prop :=
  exists r,
    In r (RESERVATIONS_TABLE (db w))
    /\ same_slot_day table b r = true
    /\ test r (Body.slotTimeStart b) (Body.slotTimeEnd b) = true.

(** The table is read whole by a scan: it is no longer than one page. *)
Definition read_whole {Item : Type} {sized : Sized Item} (tbl : list Item)
  : Prop :=
  page tbl = tbl.

(** The calls a run adds to those already recorded. *)
Definition new_calls (before after : World) : list Call :=
  skipn (List.length (calls before)) (calls after).

(** ** The scenarios of the specification *)

Module Scenario.

Definition table5 : TableItem.t :=
  {| TableItem.id := "t-5";
     TableItem.number := Num 5;
     TableItem.places := Num 4;
     TableItem.isVip := Bool false;
     TableItem.minOrder := Num 0 |}.

(** A second table that was given the same number. *)
Definition table5' : TableItem.t :=
  {| TableItem.id := "t-5-bis";
     TableItem.number := Num 5;
     TableItem.places := Num 2;
     TableItem.isVip := Bool true;
     TableItem.minOrder := Num 10 |}.

Definition rt : Runtime :=
  {| uuidv4 := "3f2b0c9e-2d6a-4c57-9a41-5f0e8f1d7a10";
     toISOString := "2024-05-30T10:00:00.000Z";
     store_ok := fun _ => true |}.

(** The runtime of a later request: another identifier, a later instant. *)
Definition rt' : Runtime :=
  {| uuidv4 := "9c1d7e44-0b3f-4e8a-b6d2-7a5c3e9f1b22";
     toISOString := "2024-05-30T10:05:00.000Z";
     store_ok := fun _ => true |}.

Definition request (start finish : value) : Body.t :=
  {| Body.tableNumber := Num 5;
     Body.clientName := Str "Ann";
     Body.phoneNumber := Str "555-0100";
     Body.date := Str "2024-06-01";
     Body.slotTimeStart := start;
     Body.slotTimeEnd := finish |}.

(** Scenario 4: a table number no table bears. *)
Definition unknown_table : Body.t :=
  {| Body.tableNumber := Num 7;
     Body.clientName := Str "Ann";
     Body.phoneNumber := Str "555-0100";
     Body.date := Str "2024-06-01";
     Body.slotTimeStart := Str "18:00";
     Body.slotTimeEnd := Str "19:00" |}.

(** Scenario 5: no date in the body. *)
Definition no_date : Body.t :=
  {| Body.tableNumber := Num 5;
     Body.clientName := Str "Ann";
     Body.phoneNumber := Str "555-0100";
     Body.date := Undefined;
     Body.slotTimeStart := Str "18:00";
     Body.slotTimeEnd := Str "19:00" |}.

(** Table number 0: a number, yet not truthy. *)
Definition table_zero : Body.t :=
  {| Body.tableNumber := Num 0;
     Body.clientName := Str "Ann";
     Body.phoneNumber := Str "555-0100";
     Body.date := Str "2024-06-01";
     Body.slotTimeStart := Str "18:00";
     Body.slotTimeEnd := Str "19:00" |}.

Definition event (b : Body.t) : Event.t :=
  {| Event.claims := Some (Str "ann"); Event.body := Some b |}.

(** Scenario 1: table 5 exists, nothing is booked. *)
Definition empty_world : World :=
  {| db := {| TABLES_TABLE := [table5]; RESERVATIONS_TABLE := [] |};
     calls := [] |}.

(** The world after scenario 1: 18:00-19:00 is booked. *)
Definition booked_world : World :=
  snd (handleCreateReservation rt (event (request (Str "18:00") (Str "19:00")))
                               empty_world).

Definition first_booking : Reservation.t :=
  reservation_of rt (Str "ann") table5 (request (Str "18:00") (Str "19:00")).

(** A candidate whose end comes before its start. *)
Definition inverted : Body.t := request (Str "18:30") (Str "17:00").

(** A candidate whose end comes before its start, both inside the booking
    of scenario 1. *)
Definition inverted_inside : Body.t := request (Str "18:45") (Str "18:15").

(** A candidate that starts where the booking of scenario 1 ends, and ends
    before that. *)
Definition inverted_touching : Body.t := request (Str "19:00") (Str "18:30").

(** A stored reservation whose end comes before its start. *)
Definition inverted_booking : Reservation.t :=
  reservation_of rt (Str "ann") table5 (request (Str "20:00") (Str "18:00")).

End Scenario.

(** A reservations table longer than one page: three reservations of table 5
    on earlier days, each with a client name of 350,000 bytes (an item may
    hold 400 KB), so that the first two fill the page and the third is not
    read. *)
Module Crowded.

Definition filler : string := N.iter 350000 (String "x") EmptyString.

Definition bulky (id date : string) : Reservation.t :=
  {| Reservation.id := id;
     Reservation.tableId := "t-5";
     Reservation.tableNumber := Num 5;
     Reservation.clientName := Str filler;
     Reservation.phoneNumber := Str "555-0199";
     Reservation.username := Str "zoe";
     Reservation.date := Str date;
     Reservation.time := Str "12:00";
     Reservation.slotTimeEnd := Str "13:00";
     Reservation.createdAt := "2024-04-01T09:00:00.000Z" |}.

Definition world : World :=
  {| db := {| TABLES_TABLE := [Scenario.table5];
              RESERVATIONS_TABLE :=
                [ bulky "b-1" "2024-05-01"; bulky "b-2" "2024-05-02";
                  bulky "b-3" "2024-05-03" ] |};
     calls := [] |}.

End Crowded.

(** * The other handlers of the file *)

(** ** More of JavaScript *)

Module Operators.

(** [typeof v] *)
Definition typeof (v : value) : string :=
  match v with
  | Undefined => "undefined"
  | Null => "object"
  | Bool _ => "boolean"
  | Num _ => "number"
  | Str _ => "string"
  end.

(** The decimal digits of a natural number. *)
Definition decimal (n : Z) : string := NilZero.string_of_int (Z.to_int n).

(** The Number value nearest to a natural number: 53 significant bits, a tie
    going to the even one. *)
Definition to_number (v : Z) : Z :=
  let bits := (Z.log2 v + 1)%Z in
  if (bits <=? 53)%Z then v
  else
    let e := (bits - 53)%Z in
    let q := Z.shiftr v e in
    let r := Z.land v (Z.ones e) in
    let half := Z.shiftl 1 (e - 1) in
    let q' := if (half <? r)%Z || ((r =? half)%Z && Z.odd q)
              then (q + 1)%Z else q in
    Z.shiftl q' e.

(** Number::toString looks for the fewest digits that still read back as
    [x]: with [k] digits kept of the [d] of [x], the two multiples of
    10^(d-k) around [x] are tried, the nearer one first. *)
Fixpoint shortest (fuel : nat) (k : Z) (d : Z) (x : Z) : Z :=
  match fuel with
  | O => x
  | S fuel' =>
      let p := (10 ^ (d - k))%Z in
      let below := (x / p * p)%Z in
      let above := (below + p)%Z in
      let ok v := (to_number v =? x)%Z in
      let s_even := Z.even (below / p) in
      let below_first :=
        (x - below <? above - x)%Z
        || ((x - below =? above - x)%Z && s_even) in
      if ok below && ok above
      then (if below_first then below else above)
      else if ok below then below
      else if ok above then above
      else shortest fuel' (k + 1)%Z d x
  end.

Fixpoint strip_zeros (fuel : nat) (n : Z) : Z :=
  match fuel with
  | O => n
  | S k => if (0 <? n)%Z && (n mod 10 =? 0)%Z
           then strip_zeros k (n / 10)%Z else n
  end.

(** A natural number as Number::toString writes it: the digits found by
    [shortest] and zeros up to 21 digits, the form d.ddde+n beyond. *)
Definition number_to_string (x : Z) : string :=
  let d := Z.of_nat (String.length (decimal x)) in
  let v := shortest (Z.to_nat d) 1 d x in
  let n := String.length (decimal v) in
  if Nat.leb n 21 then decimal v
  else
    match decimal (strip_zeros n v) with
    | String first rest =>
        String first
          (match rest with
           | EmptyString => EmptyString
           | _ => String "." rest
           end
           ++ "e+" ++ decimal (Z.of_nat (n - 1)))%string
    | EmptyString => EmptyString
    end.

(** [String(v)], also what a template literal and [RegExp.test] make of [v].
    A number is an integer that is a Number value. *)
Definition String_of (v : value) : string :=
  match v with
  | Undefined => "undefined"
  | Null => "null"
  | Bool true => "true"
  | Bool false => "false"
  | Num n => if (n <? 0)%Z then ("-" ++ number_to_string (- n))%string
             else number_to_string n
  | Str s => s
  end.

(** [a || b] *)
Definition or_else (a b : value) : value := if truthy a then a else b.

(** [a ?? b] *)
Definition nullish (a b : value) : value :=
  match a with
  | Undefined | Null => b
  | _ => a
  end.

(** [obj.name] on the fields of a parsed object: [undefined] when absent. *)
Fixpoint field (name : string) (fields : list (string * value)) : value :=
  match fields with
  | [] => Undefined
  | (k, v) :: rest => if String.eqb k name then v else field name rest
  end.

End Operators.
Import Operators.

(** ** Regular expressions, as [RegExp.prototype.test] decides them *)

Module RegExp.

(** Patterns over characters: a character class is its membership test.
    [And] is what a lookahead at the start of an anchored pattern asks for. *)
Inductive regex : Type :=
| Never
| Empty
| Class (p : ascii -> bool)
| Seq (r1 r2 : regex)
| Alt (r1 r2 : regex)
| And (r1 r2 : regex)
| Star (r : regex).

Fixpoint nullable (r : regex) : bool :=
  match r with
  | Never => false
  | Empty => true
  | Class _ => false
  | Seq a b => nullable a && nullable b
  | Alt a b => nullable a || nullable b
  | And a b => nullable a && nullable b
  | Star _ => true
  end.

(** What is left of [r] to match after the character [c]. *)
Fixpoint deriv (c : ascii) (r : regex) : regex :=
  match r with
  | Never => Never
  | Empty => Never
  | Class p => if p c then Empty else Never
  | Seq a b =>
      if nullable a then Alt (Seq (deriv c a) b) (deriv c b)
      else Seq (deriv c a) b
  | Alt a b => Alt (deriv c a) (deriv c b)
  | And a b => And (deriv c a) (deriv c b)
  | Star a => Seq (deriv c a) (Star a)
  end.

(** [^r$] against the whole of [s]. *)
Fixpoint matches (r : regex) (s : list ascii) : bool :=
  match s with
  | [] => nullable r
  | c :: rest => matches (deriv c r) rest
  end.

(** [r+] *)
Definition plus (r : regex) : regex := Seq r (Star r).

(** [r{n,}] *)
Fixpoint at_least (n : nat) (r : regex) : regex :=
  match n with
  | O => Star r
  | S k => Seq r (at_least k r)
  end.

Definition any : regex := Class (fun _ => true).

(** [(?=r)] at the start of a pattern that is anchored at both ends: some
    prefix of the string matches [r]. *)
Definition lookahead (r : regex) : regex := Seq r (Star any).

Definition code (c : ascii) : N := N_of_ascii c.

Definition in_range (lo hi c : ascii) : bool :=
  (code lo <=? code c)%N && (code c <=? code hi)%N.

Definition char (x c : ascii) : bool := Ascii.eqb x c.

(** [\d], [a-zA-Z] and [\w] *)
Definition digit (c : ascii) : bool := in_range "0" "9" c.
Definition letter (c : ascii) : bool :=
  in_range "a" "z" c || in_range "A" "Z" c.
Definition word (c : ascii) : bool := letter c || digit c || char "_" c.

(** [.]: any character but a line terminator. *)
Definition dot : regex :=
  Class (fun c => negb (char "010" c || char "013" c)).

(** [RegExp.prototype.test]: the argument is converted to a string first. *)
Definition test (r : regex) (v : value) : bool :=
  matches r (list_ascii_of_string (String_of v)).

(** The strings of a pattern: what [matches] is proved to decide. *)
Inductive star (L : list ascii -> Prop) : list ascii -> Prop :=
| star_nil : star L []
| star_app s1 s2 : L s1 -> star L s2 -> star L (s1 ++ s2).

Fixpoint lang (r : regex) (s : list ascii) : Prop :=
  match r with
  | Never => False
  | Empty => s = []
  | Class p => exists c, s = [c] /\ p c = true
  | Seq a b => exists s1 s2, s = s1 ++ s2 /\ lang a s1 /\ lang b s2
  | Alt a b => lang a s \/ lang b s
  | And a b => lang a s /\ lang b s
  | Star a => star (lang a) s
  end.

(** Every character of [s] is in the class [p]. *)
Definition all (p : ascii -> bool) (s : list ascii) : Prop :=
  Forall (fun c => p c = true) s.

End RegExp.

(** ** What the handlers answer, and what they talk to *)

(** A value handed to [JSON.stringify].  [NumberOf s] stands for [Number(s)],
    the number the string [s] reads as (NaN when it reads as none). *)
#[local] Unset Elimination Schemes.
Inductive json : Type :=
| Value (v : value)
| NumberOf (s : string)
| Array (items : list json)
| Object (fields : list (string * json)).
#[local] Set Elimination Schemes.

Module Reply.
(** The response object; [body] is what [JSON.stringify] is applied to. *)
Record t : Type := Build
  { statusCode : Z;
    headers : list (string * string);
    body : json }.
End Reply.

(** An error object, by the two properties the file reads. *)
Record Error : Type :=
  { code : value;
    message : value }.

Module ApiEvent.
(** The event of the Lambda proxy integration.
    [body]: the fields of [JSON.parse(event.body)], or the error thrown when
    it is parsed and read.  [pathParameters]: the parameter [tableId], or the
    error thrown when it is read.  [user]: [queryStringParameters.user],
    [Undefined] when there is none. *)
Record t : Type := Build
  { resource : value;
    httpMethod : value;
    claims : option value;
    body : Error + list (string * value);
    pathParameters : Error + string;
    user : value }.
End ApiEvent.

(** The calls of the other handlers on the document client. *)
Inductive StoreCall : Type :=
| ScanAllTables
| GetTable (key : string)
| PutTable (item : TableItem.t)
| ScanAllReservations (username : option value).

(** The calls on the identity provider. *)
Inductive CognitoCall : Type :=
| AdminCreateUser (email firstName lastName password : value)
| AdminSetUserPassword (email password : value)
| AdminInitiateAuth (email password : value).

Inductive Sent : Type :=
| ToStore (c : StoreCall)
| ToCognito (c : CognitoCall).

(** What the services answer: [Some e] when the promise is rejected with [e].
    [idToken]: the [AuthenticationResult.IdToken] of an answered
    [adminInitiateAuth], [None] when the answer has no
    [AuthenticationResult]. *)
Record Services : Type :=
  { runtime : Runtime;
    dynamodb : StoreCall -> option Error;
    cognito : CognitoCall -> option Error;
    idToken : value -> value -> option value }.

(** The state the handlers run in: the store with the calls of
    [handleCreateReservation], and the calls of the other handlers. *)
Record Cloud : Type :=
  { world : World;
    sent : list Sent }.

Inductive Result (A : Type) : Type :=
| Ok (a : A)
| Raise (e : Error).
Arguments Ok {A} a.
Arguments Raise {A} e.

Definition Handler (A : Type) : Type := Cloud -> Result A * Cloud.

Definition done {A} (a : A) : Handler A := fun s => (Ok a, s).

Definition raise {A} (e : Error) : Handler A := fun s => (Raise e, s).

Definition and_then {A B} (m : Handler A) (k : A -> Handler B) : Handler B :=
  fun s =>
    match m s with
    | (Ok a, s') => k a s'
    | (Raise e, s') => (Raise e, s')
    end.

Notation "x <~ m ;; k" := (and_then m (fun x => k))
  (at level 61, m at next level, right associativity).

(** [try { m } catch (error) { return h(error) }] *)
Definition catching {A} (m : Handler A) (h : Error -> A) : Handler A :=
  fun s =>
    match m s with
    | (Ok a, s') => (Ok a, s')
    | (Raise e, s') => (Ok (h e), s')
    end.

Definition note (c : Sent) (s : Cloud) : Cloud :=
  {| world := world s; sent := sent s ++ [c] |}.

Definition with_tables (tables : list TableItem.t) (s : Cloud) : Cloud :=
  {| world := {| db := {| TABLES_TABLE := tables;
                          RESERVATIONS_TABLE :=
                            RESERVATIONS_TABLE (db (world s)) |};
                 calls := calls (world s) |};
     sent := sent s |}.

(** A call on the store: noted, then answered from the tables or rejected. *)
Definition store {A} (svc : Services) (c : StoreCall)
           (answer : Cloud -> A * Cloud) : Handler A :=
  fun s =>
    match dynamodb svc c with
    | None => let (a, s') := answer (note (ToStore c) s) in (Ok a, s')
    | Some e => (Raise e, note (ToStore c) s)
    end.

(** A call on the identity provider. *)
Definition identity (svc : Services) (c : CognitoCall) : Handler unit :=
  fun s =>
    match cognito svc c with
    | None => (Ok tt, note (ToCognito c) s)
    | Some e => (Raise e, note (ToCognito c) s)
    end.

Definition tables_of (s : Cloud) : list TableItem.t :=
  TABLES_TABLE (db (world s)).

Definition reservations_of (s : Cloud) : list Reservation.t :=
  RESERVATIONS_TABLE (db (world s)).

(** [dynamodb.get] by the key [id]. *)
Definition get {Item} (key : Item -> string) (k : string) (tbl : list Item)
  : option Item :=
  find (fun x => String.eqb (key x) k) tbl.

(** ** The source functions *)

(** [formatResponse], for a body of any shape. *)
Definition respond (statusCode : Z) (body : json) : Reply.t :=
  {| Reply.statusCode := statusCode;
     Reply.headers := corsHeaders;
     Reply.body := body |}.

(** The response of [handleCreateReservation] as a reply. *)
Definition reply_of (r : Response.t) : Reply.t :=
  {| Reply.statusCode := Response.statusCode r;
     Reply.headers := Response.headers r;
     Reply.body :=
       Object (map (fun kv => (fst kv, Value (snd kv))) (Response.body r)) |}.

Definition says (key text : string) : json := Object [(key, Value (Str text))].

(** [JSON.parse(event.body)], read as an object. *)
Definition parse (event : ApiEvent.t) : Handler (list (string * value)) :=
  match ApiEvent.body event with
  | inr fields => done fields
  | inl e => raise e
  end.

(** [getUsernameFromToken], on the event of the proxy integration. *)
Definition username_of (event : ApiEvent.t) : value :=
  match ApiEvent.claims event with
  | Some username => username
  | None => Null
  end.

(** /^[\w.%+-]+@[\w.-]+\.[a-zA-Z]{2,}$/ *)
Definition email_format : RegExp.regex :=
  RegExp.Seq
    (RegExp.plus
       (RegExp.Class (fun c => RegExp.word c || RegExp.char "." c
                               || RegExp.char "%" c || RegExp.char "+" c
                               || RegExp.char "-" c)))
    (RegExp.Seq
       (RegExp.Class (RegExp.char "@"))
       (RegExp.Seq
          (RegExp.plus
             (RegExp.Class (fun c => RegExp.word c || RegExp.char "." c
                                     || RegExp.char "-" c)))
          (RegExp.Seq
             (RegExp.Class (RegExp.char "."))
             (RegExp.at_least 2 (RegExp.Class RegExp.letter))))).

(** [$%^*-_]: the three characters and the range from [*] to [_]. *)
Definition special (c : ascii) : bool :=
  RegExp.char "$" c || RegExp.char "%" c || RegExp.char "^" c
  || RegExp.in_range "*" "_" c.

(** [A-Za-z\d$%^*-_] *)
Definition password_char (c : ascii) : bool :=
  RegExp.in_range "A" "Z" c || RegExp.in_range "a" "z" c || RegExp.digit c
  || RegExp.char "$" c || RegExp.char "%" c || RegExp.char "^" c
  || RegExp.in_range "*" "_" c.

(** /^(?=.*[A-Za-z])(?=.*\d)(?=.*[$%^*-_])[A-Za-z\d$%^*-_]{12,}$/ *)
Definition password_format : RegExp.regex :=
  RegExp.And
    (RegExp.lookahead
       (RegExp.Seq (RegExp.Star RegExp.dot)
                   (RegExp.Class (fun c => RegExp.in_range "A" "Z" c
                                           || RegExp.in_range "a" "z" c))))
    (RegExp.And
       (RegExp.lookahead
          (RegExp.Seq (RegExp.Star RegExp.dot) (RegExp.Class RegExp.digit)))
       (RegExp.And
          (RegExp.lookahead
             (RegExp.Seq (RegExp.Star RegExp.dot) (RegExp.Class special)))
          (RegExp.at_least 12 (RegExp.Class password_char)))).

Definition handleSignup (svc : Services) (event : ApiEvent.t)
  : Handler Reply.t :=
  catching
    (fields <~ parse event ;;
     let firstName := field "firstName" fields in
     let lastName := field "lastName" fields in
     let email := field "email" fields in
     let password := field "password" fields in
     if negb (truthy firstName) || negb (truthy lastName)
        || negb (truthy email) || negb (truthy password)
     then done (respond 400 (says "error" "All fields are required."))
     else if negb (RegExp.test email_format email)
     then done (respond 400 (says "error" "Invalid email format."))
     else if negb (RegExp.test password_format password)
     then done (respond 400 (says "error" "Invalid password format."))
     else
       _ <~ identity svc (AdminCreateUser email firstName lastName password) ;;
       _ <~ identity svc (AdminSetUserPassword email password) ;;
       done (respond 200 (says "message" "User created successfully.")))
    (fun error =>
       match code error with
       | Str "UsernameExistsException" =>
           respond 400 (says "error" "Email already exists.")
       | _ => respond 502 (says "error" "Signup failed.")
       end).

Definition handleSignin (svc : Services) (event : ApiEvent.t)
  : Handler Reply.t :=
  catching
    (fields <~ parse event ;;
     let email := field "email" fields in
     let password := field "password" fields in
     _ <~ identity svc (AdminInitiateAuth email password) ;;
     match idToken svc email password with
     | None =>
         done (respond 400 (says "error" "Authentication failed. Try again."))
     | Some token => done (respond 200 (Object [("idToken", Value token)]))
     end)
    (fun error =>
       match code error with
       | Str "NotAuthorizedException" =>
           respond 400 (says "error" "Invalid email or password.")
       | _ => respond 400 (says "error" "Authentication failed.")
       end).

(** The table object of [handleGetTables] and [handleGetTableById]. *)
Definition table_view (table : TableItem.t) : json :=
  Object [ ("id", NumberOf (TableItem.id table));
           ("number", Value (TableItem.number table));
           ("places", Value (TableItem.places table));
           ("isVip", Value (TableItem.isVip table));
           ("minOrder", Value (or_else (TableItem.minOrder table) (Num 0))) ].

Definition handleGetTables (svc : Services) (event : ApiEvent.t)
  : Handler Reply.t :=
  let username := username_of event in
  if negb (truthy username)
  then done (respond 401 (says "message" "Unauthorized"))
  else
    catching
      (items <~ store svc ScanAllTables (fun s => (page (tables_of s), s)) ;;
       done (respond 200 (Object [("tables", Array (map table_view items))])))
      (fun _ => respond 500 (says "message" "Internal Server Error")).

Definition handleCreateTable (svc : Services) (event : ApiEvent.t)
  : Handler Reply.t :=
  let username := username_of event in
  if negb (truthy username)
  then done (respond 401 (says "message" "Unauthorized"))
  else
    table <~ parse event ;;
    if negb (String.eqb (typeof (field "number" table)) "number")
       || negb (String.eqb (typeof (field "places" table)) "number")
       || negb (String.eqb (typeof (field "isVip" table)) "boolean")
    then done (respond 400 (says "message"
                 "Table number, capacity, and location are required"))
    else
      let tableId := or_else (field "id" table) (Str (uuidv4 (runtime svc))) in
      let tableData :=
        {| TableItem.id := String_of tableId;
           TableItem.number := field "number" table;
           TableItem.places := field "places" table;
           TableItem.isVip := field "isVip" table;
           TableItem.minOrder := nullish (field "minOrder" table) (Num 0) |} in
      _ <~ store svc (PutTable tableData)
             (fun s => (tt, with_tables (put TableItem.id tableData
                                             (tables_of s)) s)) ;;
      done (respond 200 (Object [("id", Value tableId)])).

Definition handleGetTableById (svc : Services) (event : ApiEvent.t)
  : Handler Reply.t :=
  let username := username_of event in
  if negb (truthy username)
  then done (respond 401 (says "message" "Unauthorized"))
  else
    match ApiEvent.pathParameters event with
    | inl e => raise e
    | inr tableId =>
        catching
          (item <~ store svc (GetTable tableId)
                     (fun s => (get TableItem.id tableId (tables_of s), s)) ;;
           match item with
           | None => done (respond 404 (says "message" "Table not found"))
           | Some table => done (respond 200 (table_view table))
           end)
          (fun _ => respond 500 (says "message" "Internal Server Error"))
    end.

(** The reservation object of [handleGetReservations]. *)
Definition reservation_view (item : Reservation.t) : json :=
  Object [ ("tableNumber", Value (Reservation.tableNumber item));
           ("clientName", Value (Reservation.clientName item));
           ("phoneNumber", Value (Reservation.phoneNumber item));
           ("date", Value (Reservation.date item));
           ("slotTimeStart", Value (Reservation.time item));
           ("slotTimeEnd", Value (Reservation.slotTimeEnd item)) ].

(** "username = :username", when the query names a user. *)
Definition reservations_filter (user : value) (r : Reservation.t) : bool :=
  if truthy user then attr_eq (Reservation.username r) user else true.

Definition handleGetReservations (svc : Services) (event : ApiEvent.t)
  : Handler Reply.t :=
  let username := username_of event in
  if negb (truthy username)
  then done (respond 401 (says "message" "Unauthorized"))
  else
    let user := ApiEvent.user event in
    items <~ store svc
               (ScanAllReservations (if truthy user then Some user else None))
               (fun s => (scan (reservations_filter user) (reservations_of s),
                          s)) ;;
    done (respond 200
            (Object [("reservations", Array (map reservation_view items))])).

(** The six fields [handleCreateReservation] destructures. *)
Definition reservation_body (fields : list (string * value)) : Body.t :=
  {| Body.tableNumber := field "tableNumber" fields;
     Body.clientName := field "clientName" fields;
     Body.phoneNumber := field "phoneNumber" fields;
     Body.date := field "date" fields;
     Body.slotTimeStart := field "slotTimeStart" fields;
     Body.slotTimeEnd := field "slotTimeEnd" fields |}.

Definition reservation_event (event : ApiEvent.t) : Event.t :=
  {| Event.claims := ApiEvent.claims event;
     Event.body := match ApiEvent.body event with
                   | inr fields => Some (reservation_body fields)
                   | inl _ => None
                   end |}.

(** [handleCreateReservation], run on the store of the state. *)
Definition createReservation (svc : Services) (event : ApiEvent.t)
  : Handler Reply.t :=
  fun s =>
    let (response, w) :=
      handleCreateReservation (runtime svc) (reservation_event event)
                              (world s) in
    (Ok (reply_of response), {| world := w; sent := sent s |}).

Definition routes
  : list (string * (Services -> ApiEvent.t -> Handler Reply.t)) :=
  [ ("POST /signup", handleSignup);
    ("POST /signin", handleSignin);
    ("GET /tables", handleGetTables);
    ("POST /tables", handleCreateTable);
    ("GET /tables/{tableId}", handleGetTableById);
    ("GET /reservations", handleGetReservations);
    ("POST /reservations", createReservation) ].

(** [routes[routeKey]] *)
Fixpoint route {A} (routeKey : string) (table : list (string * A))
  : option A :=
  match table with
  | [] => None
  | (k, h) :: rest => if String.eqb k routeKey then Some h
                      else route routeKey rest
  end.

Definition handler (svc : Services) (event : ApiEvent.t)
  : Cloud -> Reply.t * Cloud :=
  fun s =>
    let routeKey := (String_of (ApiEvent.httpMethod event) ++ " "
                     ++ String_of (ApiEvent.resource event))%string in
    match route routeKey routes with
    | Some h =>
        match h svc event s with
        | (Ok response, s') => (response, s')
        | (Raise error, s') =>
            ({| Reply.statusCode := 500;
                Reply.headers := corsHeaders;
                Reply.body :=
                  Object [ ("message", Value (Str "Internal Server Error"));
                           ("error", Value (message error)) ] |}, s')
        end
    | None =>
        ({| Reply.statusCode := 404;
            Reply.headers := corsHeaders;
            Reply.body := says "message" "Not Found" |}, s)
    end.

(** ** Inputs for the examples *)

Module Cases.

Definition services : Services :=
  {| runtime := Scenario.rt';
     dynamodb := fun _ => None;
     cognito := fun _ => None;
     idToken := fun _ _ => Some (Str "eyJraWQiOiJrMSJ9.e30.c2ln") |}.

Definition syntax_error : Error :=
  {| code := Undefined; message := Str "Unexpected end of JSON input" |}.

Definition cloud (w : World) : Cloud := {| world := w; sent := [] |}.

Definition request (method resource : string)
           (fields : list (string * value)) : ApiEvent.t :=
  {| ApiEvent.resource := Str resource;
     ApiEvent.httpMethod := Str method;
     ApiEvent.claims := Some (Str "ann");
     ApiEvent.body := inr fields;
     ApiEvent.pathParameters := inr "t-9";
     ApiEvent.user := Undefined |}.

Definition new_table : list (string * value) :=
  [ ("id", Str "t-9"); ("number", Num 9); ("places", Num 6);
    ("isVip", Bool true); ("minOrder", Str EmptyString) ].

Definition signup : list (string * value) :=
  [ ("firstName", Str "Ann"); ("lastName", Str "Lee");
    ("email", Str "ann.lee@example.org");
    ("password", Str "password1234") ].

End Cases.

(** ** Order on strings and attributes *)

Lemma ascii_compare_refl (a : ascii) : Ascii.compare a a = Eq.
Proof. unfold Ascii.compare. apply N.compare_refl. Qed.

Lemma string_leb_trans (a b c : string) :
  String.leb a b = true -> String.leb b c = true -> String.leb a c = true.
Proof.
  unfold String.leb.
  revert b c.
  induction a as [|x a IH]; intros [|y b] [|z c]; simpl; try congruence.
  unfold Ascii.compare.
  destruct (N.compare_spec (N_of_ascii x) (N_of_ascii y)) as [Exy|Lxy|Gxy];
    destruct (N.compare_spec (N_of_ascii y) (N_of_ascii z)) as [Eyz|Lyz|Gyz];
    try congruence; intros Hab Hbc.
  - rewrite Exy, Eyz, N.compare_refl. now apply (IH b c).
  - rewrite Exy. now apply N.compare_lt_iff in Lyz as ->.
  - rewrite <- Eyz. now apply N.compare_lt_iff in Lxy as ->.
  - assert (Lxz : (N_of_ascii x < N_of_ascii z)%N) by lia.
    now apply N.compare_lt_iff in Lxz as ->.
Qed.

Lemma attr_le_trans (a b c : value) :
  attr_le a b = true -> attr_le b c = true -> attr_le a c = true.
Proof.
  destruct a, b, c; simpl; try congruence.
  - intros H1 H2. apply Z.leb_le in H1, H2. apply Z.leb_le. lia.
  - apply string_leb_trans.
Qed.

Lemma attr_le_comparable (a b : value) :
  attr_le a b = true -> comparable a b = true.
Proof. destruct a, b; simpl; congruence. Qed.

Lemma comparable_sym (a b : value) : comparable a b = comparable b a.
Proof. now destruct a, b. Qed.

Lemma comparable_trans (a b c : value) :
  comparable a b = true -> comparable b c = true -> comparable a c = true.
Proof. destruct a, b, c; simpl; congruence. Qed.

Lemma attr_le_total (a b : value) :
  comparable a b = true -> attr_le a b = true \/ attr_le b a = true.
Proof.
  destruct a, b; simpl; try congruence; intros _.
  - destruct (Z.leb_spec n n0); [now left|right]. apply Z.leb_le. lia.
  - apply String.leb_total.
Qed.

(** ** How the handler runs *)

Lemma hd_error_cons {A} (l : list A) (x : A) :
  hd_error l = Some x -> exists rest, l = x :: rest.
Proof. destruct l; simpl; [discriminate|]. intros [= ->]. now eexists. Qed.

(** From line 307 on: the conflict branch, or the put and its two ends. *)
Lemma run_resolved rt event w b table :
  resolved rt event w b table ->
  handleCreateReservation rt event w =
  if Nat.ltb 0 (List.length (existingReservations w table b))
  then (already_reserved, scanned w table b)
  else
    let item := reservation_of rt (getUsernameFromToken event) table b in
    if store_ok rt (PutReservation item)
    then (created (uuidv4 rt),
          {| db := {| TABLES_TABLE := TABLES_TABLE (db w);
                      RESERVATIONS_TABLE :=
                        put Reservation.id item (RESERVATIONS_TABLE (db w)) |};
             calls := calls (scanned w table b) ++ [PutReservation item] |})
    else (internal_server_error,
          record_call (PutReservation item) (scanned w table b)).
Proof.
  intros (Hu & Hb & Hn & Hd & Hs & He & Hok1 & Hhd & Hok2 & Hwf).
  apply hd_error_cons in Hhd as [rest Hhd].
  unfold handleCreateReservation, try_catch, bind, scan_tables,
    scan_reservations, existingReservations.
  unfold well_formed in Hwf.
  rewrite Hu, Hb. simpl. rewrite Hn, Hd, Hs, He. simpl.
  rewrite Hok1, Hhd, Hok2, Hwf. simpl.
  destruct (scan _ (RESERVATIONS_TABLE (db w))) as [|r rs]; simpl.
  - unfold put_reservation. simpl.
    destruct (store_ok rt (PutReservation _)); reflexivity.
  - reflexivity.
Qed.

(** ** Pages *)

Lemma read_incl {Item} {sized : Sized Item} budget (tbl : list Item) x :
  In x (read budget tbl) -> In x tbl.
Proof.
  revert budget. induction tbl as [|y tbl IH]; simpl; intros budget; trivial.
  destruct (size y <=? budget)%N; simpl; [|tauto].
  intros [->|H]; [now left|right; eauto].
Qed.

Lemma page_incl {Item} {sized : Sized Item} (tbl : list Item) x :
  In x (page tbl) -> In x tbl.
Proof. apply read_incl. Qed.


(** A scan is non-empty exactly when some item of the page passes its
    filter. *)
Lemma scan_nonempty {Item} {sized : Sized Item} (keep : Item -> bool)
      (tbl : list Item) :
  Nat.ltb 0 (List.length (scan keep tbl)) = true <->
  exists x, In x (page tbl) /\ keep x = true.
Proof.
  unfold scan. split.
  - destruct (filter keep (page tbl)) as [|x l] eqn:E; simpl; [discriminate|].
    intros _. exists x. apply filter_In. rewrite E. now left.
  - intros (x & Hin & Hk).
    assert (Hx : In x (filter keep (page tbl))) by now apply filter_In.
    destruct (filter keep (page tbl)); [contradiction|reflexivity].
Qed.

Lemma filter_is_slot_and_start r table b :
  reservationCheckParams (TableItem.id table) (Body.date b)
    (Body.slotTimeStart b) (Body.slotTimeEnd b) r =
  same_slot_day table b r
  && start_within r (Body.slotTimeStart b) (Body.slotTimeEnd b).
Proof. reflexivity. Qed.

(** The response tells the conflict branch from every other one. *)
Lemma already_reserved_inv rt event w b table :
  resolved rt event w b table ->
  fst (handleCreateReservation rt event w) = already_reserved <->
  Nat.ltb 0 (List.length (existingReservations w table b)) = true.
Proof.
  intros R. rewrite (run_resolved _ _ _ _ _ R).
  destruct (Nat.ltb 0 _); simpl.
  - tauto.
  - destruct (store_ok rt _); simpl; split; discriminate.
Qed.

(** The overlap rule implies the filter's test when the candidate's two
    times are of one ordered type. *)
Lemma overlap_start_within r start finish :
  comparable start finish = true ->
  overlap r start finish = true -> start_within r start finish = true.
Proof.
  unfold overlap, start_within, between. intros Hc Ho.
  apply andb_true_iff in Ho as [H1 H2].
  assert (Hcmp : comparable start (Reservation.time r) = true).
  { apply comparable_trans with finish; [exact Hc|].
    rewrite comparable_sym. now apply attr_le_comparable. }
  destruct (attr_le_total _ _ Hcmp) as [Hle|Hle].
  - rewrite Hle, H1. reflexivity.
  - rewrite Hle, H2. apply orb_true_r.
Qed.

(** The filter's test implies the overlap rule when both ranges are
    well formed. *)
Lemma start_within_overlap r start finish :
  well_formed start finish = true ->
  well_formed (Reservation.time r) (Reservation.slotTimeEnd r) = true ->
  start_within r start finish = true -> overlap r start finish = true.
Proof.
  unfold overlap, start_within, between, well_formed. intros Wc Wr H.
  apply orb_true_iff in H as [H|H]; apply andb_true_iff in H as [H1 H2];
    apply andb_true_iff; split; trivial.
  - apply attr_le_trans with (Reservation.time r); assumption.
  - apply attr_le_trans with start; assumption.
Qed.

(** ** The conflict check against the overlap rule *)

(** A candidate whose bounds are not in order never reaches line 307: the
    store refuses the conflict scan and the handler's catch answers 500, with
    both tables as they were. *)
Lemma refused_between_run rt event w b table :
  truthy (getUsernameFromToken event) = true ->
  Event.body event = Some b ->
  truthy (Body.tableNumber b) = true ->
  truthy (Body.date b) = true ->
  truthy (Body.slotTimeStart b) = true ->
  truthy (Body.slotTimeEnd b) = true ->
  store_ok rt (ScanTables (Body.tableNumber b)) = true ->
  hd_error (scan (tableParams (Body.tableNumber b)) (TABLES_TABLE (db w)))
  = Some table ->
  well_formed (Body.slotTimeStart b) (Body.slotTimeEnd b) = false ->
  handleCreateReservation rt event w
  = (internal_server_error, scanned w table b).
Proof.
  intros Hu Hb Hn Hd Hs He Hok Ht Hwf.
  apply hd_error_cons in Ht as [rest Ht].
  unfold handleCreateReservation, try_catch, bind, scan_tables,
    scan_reservations.
  unfold well_formed in Hwf.
  rewrite Hu, Hb. simpl. rewrite Hn, Hd, Hs, He. simpl.
  rewrite Hok, Ht. simpl. rewrite Hwf, andb_false_r. reflexivity.
Qed.

(** C1, as stated, at the candidate 18:45-18:15 against the booking
    18:00-19:00 of the same table and date: the booking satisfies
    existing.start <= candidate.end AND candidate.start <= existing.end, and
    the candidate is not rejected as a conflict: the store refuses the
    BETWEEN whose bounds are not in order, and the answer is 500. *)
Lemma conflict_iff_overlap_fails_inverted :
  let w := Scenario.booked_world in
  let b := Scenario.inverted_inside in
  let ev := Scenario.event b in
  hd_error (scan (tableParams (Body.tableNumber b)) (TABLES_TABLE (db w)))
  = Some Scenario.table5
  /\ conflicting w Scenario.table5 b overlap
  /\ Response.statusCode (fst (handleCreateReservation Scenario.rt ev w))
     = 500%Z
  /\ ~ (fst (handleCreateReservation Scenario.rt ev w) = already_reserved
        <-> conflicting w Scenario.table5 b overlap).
Proof.
  cbv zeta.
  assert (O : conflicting Scenario.booked_world Scenario.table5
                          Scenario.inverted_inside overlap).
  { exists Scenario.first_booking. vm_compute. repeat split. now left. }
  assert (E : handleCreateReservation Scenario.rt
                (Scenario.event Scenario.inverted_inside) Scenario.booked_world
              = (internal_server_error,
                 scanned Scenario.booked_world Scenario.table5
                         Scenario.inverted_inside))
    by (apply refused_between_run; reflexivity).
  split; [reflexivity|]. split; [exact O|]. rewrite E. split; [reflexivity|].
  intros [_ H]. specialize (H O). discriminate H.
Qed.

(** C1, amended: once the table is resolved, for a candidate whose times are
    in order (start <= end, so that the store answers the conflict scan) and
    a reservations table that the scan reads whole, the candidate is rejected
    as a conflict if and only if some existing reservation with the same
    tableId and date has its start within the candidate's range or has the
    candidate's start within its own range.  A reservation that satisfies the
    overlap rule existing.start <= candidate.end AND candidate.start <=
    existing.end always causes the rejection, and the two tests agree when the
    stored reservations of that table and date all have start <= end. *)
Theorem conflict_iff_start_within rt event w b table :
  resolved rt event w b table ->
  well_formed (Body.slotTimeStart b) (Body.slotTimeEnd b) = true ->
  read_whole (RESERVATIONS_TABLE (db w)) ->
  (fst (handleCreateReservation rt event w) = already_reserved
   <-> conflicting w table b start_within)
  /\ (conflicting w table b overlap ->
      fst (handleCreateReservation rt event w) = already_reserved)
  /\ ((forall r, In r (RESERVATIONS_TABLE (db w)) ->
                 same_slot_day table b r = true ->
                 well_formed (Reservation.time r) (Reservation.slotTimeEnd r)
                 = true) ->
      (fst (handleCreateReservation rt event w) = already_reserved
       <-> conflicting w table b overlap)).
Proof.
  intros R Wc Whole.
  assert (Hcode : fst (handleCreateReservation rt event w) = already_reserved
                  <-> conflicting w table b start_within).
  { rewrite (already_reserved_inv _ _ _ _ _ R).
    unfold existingReservations. rewrite scan_nonempty. unfold conflicting.
    rewrite Whole.
    split; intros (r & Hin & H); exists r; split; trivial.
    - rewrite filter_is_slot_and_start in H. now apply andb_true_iff in H.
    - rewrite filter_is_slot_and_start. now apply andb_true_iff. }
  assert (Hc : comparable (Body.slotTimeStart b) (Body.slotTimeEnd b) = true)
    by now apply attr_le_comparable.
  split; [exact Hcode|split].
  - intros (r & Hin & Hs & Ho). apply Hcode.
    exists r. repeat split; trivial. now apply overlap_start_within.
  - intros Wr. rewrite Hcode. unfold conflicting.
    split; intros (r & Hin & Hs & H); exists r; repeat split; trivial.
    + apply start_within_overlap; auto.
    + now apply overlap_start_within.
Qed.

Lemma conflict_iff_start_within_scenario2 :
  let w := Scenario.booked_world in
  let b := Scenario.request (Str "18:30") (Str "19:30") in
  resolved Scenario.rt (Scenario.event b) w b Scenario.table5
  /\ read_whole (RESERVATIONS_TABLE (db w))
  /\ fst (handleCreateReservation Scenario.rt (Scenario.event b) w)
     = already_reserved.
Proof.
  cbv zeta.
  assert (R : resolved Scenario.rt
                (Scenario.event (Scenario.request (Str "18:30") (Str "19:30")))
                Scenario.booked_world
                (Scenario.request (Str "18:30") (Str "19:30")) Scenario.table5)
    by (vm_compute; repeat split).
  assert (W : read_whole (RESERVATIONS_TABLE (db Scenario.booked_world)))
    by (vm_compute; reflexivity).
  split; [exact R|]. split; [exact W|].
  apply (proj1 (proj2 (conflict_iff_start_within _ _ _ _ _ R eq_refl W))).
  exists Scenario.first_booking. vm_compute. repeat split. now left.
Defined.

(** ** Writes *)

Lemma put_fresh {Item} (key : Item -> string) (it : Item) (tbl : list Item) :
  (forall x, In x tbl -> key x <> key it) -> put key it tbl = tbl ++ [it].
Proof.
  induction tbl as [|x tbl IH]; simpl; intros F; [reflexivity|].
  destruct (String.eqb_spec (key x) (key it)) as [E|_].
  - exfalso. apply (F x); auto.
  - f_equal. apply IH. intros y Hy. apply F. now right.
Qed.

Lemma put_In {Item} (key : Item -> string) (it : Item) (tbl : list Item) :
  In it (put key it tbl).
Proof.
  induction tbl as [|x tbl IH]; simpl; [now left|].
  destruct (String.eqb (key x) (key it)); [now left|now right].
Qed.

Lemma new_calls_app w (l : list Call) (d : Db) :
  new_calls w {| db := d; calls := calls w ++ l |} = l.
Proof.
  unfold new_calls. simpl.
  rewrite skipn_app, skipn_all, Nat.sub_diag. reflexivity.
Qed.

(** A run that answers 200 went through the whole of the handler. *)
Lemma created_inv rt event w :
  Response.statusCode (fst (handleCreateReservation rt event w)) = 200%Z ->
  exists b table,
    resolved rt event w b table
    /\ existingReservations w table b = []
    /\ store_ok rt (PutReservation
                      (reservation_of rt (getUsernameFromToken event) table b))
       = true.
Proof.
  unfold handleCreateReservation, try_catch, bind, resolved,
    existingReservations.
  destruct (truthy (getUsernameFromToken event)) eqn:Hu; simpl;
    [|discriminate].
  destruct (Event.body event) as [b|] eqn:Hb; simpl; [|discriminate].
  destruct (truthy (Body.tableNumber b)) eqn:Hn; simpl; [|discriminate].
  destruct (truthy (Body.date b)) eqn:Hd; simpl; [|discriminate].
  destruct (truthy (Body.slotTimeStart b)) eqn:Hs; simpl; [|discriminate].
  destruct (truthy (Body.slotTimeEnd b)) eqn:He; simpl; [|discriminate].
  unfold scan_tables.
  destruct (store_ok rt (ScanTables _)) eqn:Hok1; simpl; [|discriminate].
  destruct (scan (tableParams _) _) as [|table rest] eqn:Ht; simpl;
    [discriminate|].
  unfold scan_reservations.
  destruct (store_ok rt (ScanReservations _ _ _ _)) eqn:Hok2; simpl;
    [|discriminate].
  destruct (attr_le (Body.slotTimeStart b) (Body.slotTimeEnd b)) eqn:Hwf;
    simpl; [|discriminate].
  destruct (scan (reservationCheckParams _ _ _ _) _) as [|r rs] eqn:Hr; simpl;
    [|discriminate].
  unfold put_reservation.
  destruct (store_ok rt (PutReservation _)) eqn:Hok3; simpl; [|discriminate].
  intros _. exists b, table. rewrite Ht. simpl. repeat split; trivial.
Qed.

Lemma created_run rt event w b table :
  resolved rt event w b table ->
  existingReservations w table b = [] ->
  store_ok rt (PutReservation
                 (reservation_of rt (getUsernameFromToken event) table b))
  = true ->
  handleCreateReservation rt event w =
  (created (uuidv4 rt),
   {| db := {| TABLES_TABLE := TABLES_TABLE (db w);
               RESERVATIONS_TABLE :=
                 put Reservation.id
                     (reservation_of rt (getUsernameFromToken event) table b)
                     (RESERVATIONS_TABLE (db w)) |};
      calls := calls (scanned w table b)
               ++ [PutReservation
                     (reservation_of rt (getUsernameFromToken event) table b)]
   |}).
Proof.
  intros R E Hok. rewrite (run_resolved _ _ _ _ _ R), E. simpl.
  now rewrite Hok.
Qed.

Lemma scan_empty {Item} {sized : Sized Item} (keep : Item -> bool)
      (tbl : list Item) (x : Item) :
  scan keep tbl = [] -> In x (page tbl) -> keep x = false.
Proof.
  unfold scan. intros E Hin. destruct (keep x) eqn:K; trivial.
  assert (H : In x (filter keep (page tbl))) by now apply filter_In.
  rewrite E in H. contradiction.
Qed.

Lemma attr_eq_truthy_refl (v : value) : truthy v = true -> attr_eq v v = true.
Proof.
  destruct v; simpl; try congruence.
  - now intros ->.
  - intros _. apply Z.eqb_refl.
  - intros _. apply String.eqb_refl.
Qed.

(** ** Reservations admitted one after the other *)

(** C2, at a reservations table longer than one page.  A (18:00-19:00) is
    admitted and stored after the three reservations of [Crowded.world]; B
    (18:30-19:30, same table and date) is then admitted as well, because the
    one page its conflict scan reads ends before A; and the two intervals
    satisfy A.start <= B.end AND B.start <= A.end. *)
Theorem double_booking_beyond_first_page :
  let bA := Scenario.request (Str "18:00") (Str "19:00") in
  let bB := Scenario.request (Str "18:30") (Str "19:30") in
  let runA :=
    handleCreateReservation Scenario.rt (Scenario.event bA) Crowded.world in
  let runB :=
    handleCreateReservation Scenario.rt' (Scenario.event bB) (snd runA) in
  Response.statusCode (fst runA) = 200%Z
  /\ Response.statusCode (fst runB) = 200%Z
  /\ attr_le (Body.slotTimeStart bA) (Body.slotTimeEnd bB)
     && attr_le (Body.slotTimeStart bB) (Body.slotTimeEnd bA) = true.
Proof.
  cbv zeta. split; [|split]; vm_compute; reflexivity.
Qed.

(** X25: when A is admitted and then B is admitted against the store that
    holds A, both for the same table number and date, and that store is read
    whole by B's conflict scan, the intervals do not satisfy
    A.start <= B.end AND B.start <= A.end. *)
Theorem admitted_pair_no_overlap rtA rtB evA evB bA bB w :
  Event.body evA = Some bA ->
  Event.body evB = Some bB ->
  Body.tableNumber bA = Body.tableNumber bB ->
  Body.date bA = Body.date bB ->
  read_whole
    (RESERVATIONS_TABLE (db (snd (handleCreateReservation rtA evA w)))) ->
  Response.statusCode (fst (handleCreateReservation rtA evA w)) = 200%Z ->
  Response.statusCode
    (fst (handleCreateReservation rtB evB
            (snd (handleCreateReservation rtA evA w)))) = 200%Z ->
  attr_le (Body.slotTimeStart bA) (Body.slotTimeEnd bB)
  && attr_le (Body.slotTimeStart bB) (Body.slotTimeEnd bA) = false.
Proof.
  intros HbA HbB Hnum Hdate Hwhole HA HB.
  apply created_inv in HA as (bA' & tA & RA & EA & OA).
  assert (bA' = bA) by (destruct RA as (_ & Hb & _); congruence). subst bA'.
  rewrite (created_run _ _ _ _ _ RA EA OA) in HB, Hwhole.
  simpl in HB, Hwhole.
  apply created_inv in HB as (bB' & tB & RB & EB & _).
  assert (bB' = bB) by (destruct RB as (_ & Hb & _); congruence). subst bB'.
  assert (tB = tA).
  { destruct RA as (_ & _ & _ & _ & _ & _ & _ & HtA & _).
    destruct RB as (_ & _ & _ & _ & _ & _ & _ & HtB & _).
    simpl in HtB. rewrite <- Hnum in HtB. congruence. }
  subst tB.
  set (itemA := reservation_of rtA (getUsernameFromToken evA) tA bA) in *.
  unfold existingReservations in EB. simpl in EB.
  assert (Hin : In itemA (page (put Reservation.id itemA
                                    (RESERVATIONS_TABLE (db w)))))
    by (rewrite Hwhole; apply put_In).
  pose proof (scan_empty _ _ itemA EB Hin) as F.
  rewrite filter_is_slot_and_start in F.
  assert (S : same_slot_day tA bB itemA = true).
  { unfold same_slot_day. simpl. rewrite String.eqb_refl, Hdate. simpl.
    apply attr_eq_truthy_refl. now destruct RB as (_ & _ & _ & Hd & _). }
  rewrite S in F. simpl in F.
  assert (Hcmp : comparable (Body.slotTimeStart bB) (Body.slotTimeEnd bB)
                 = true).
  { apply attr_le_comparable.
    now destruct RB as (_ & _ & _ & _ & _ & _ & _ & _ & _ & Hwf). }
  destruct (attr_le (Body.slotTimeStart bA) (Body.slotTimeEnd bB)
            && attr_le (Body.slotTimeStart bB) (Body.slotTimeEnd bA)) eqn:O;
    trivial.
  rewrite (overlap_start_within itemA _ _ Hcmp O) in F. discriminate.
Qed.

Lemma admitted_pair_no_overlap_scenario :
  let bA := Scenario.request (Str "18:00") (Str "19:00") in
  let bB := Scenario.request (Str "19:30") (Str "20:30") in
  Response.statusCode
    (fst (handleCreateReservation Scenario.rt (Scenario.event bA)
            Scenario.empty_world)) = 200%Z
  /\ Response.statusCode
       (fst (handleCreateReservation Scenario.rt' (Scenario.event bB)
               Scenario.booked_world)) = 200%Z
  /\ attr_le (Str "18:00") (Str "20:30") && attr_le (Str "19:30") (Str "19:00")
     = false.
Proof.
  cbv zeta. split; [reflexivity|split; [reflexivity|]].
  apply (admitted_pair_no_overlap Scenario.rt Scenario.rt'
           (Scenario.event (Scenario.request (Str "18:00") (Str "19:00")))
           (Scenario.event (Scenario.request (Str "19:30") (Str "20:30")))
           (Scenario.request (Str "18:00") (Str "19:00"))
           (Scenario.request (Str "19:30") (Str "20:30"))
           Scenario.empty_world);
    reflexivity.
Defined.

(** ** Ranges that touch *)

Lemma string_leb_refl (s : string) : String.leb s s = true.
Proof.
  unfold String.leb.
  assert (E : String.compare s s = Eq).
  { induction s as [|c s IH]; simpl; trivial.
    now rewrite ascii_compare_refl. }
  now rewrite E.
Qed.

Lemma attr_le_refl_right (a b : value) :
  attr_le a b = true -> attr_le b b = true.
Proof.
  destruct a, b; simpl; try congruence; intros _.
  - apply Z.leb_refl.
  - apply string_leb_refl.
Qed.

(** C3, as stated, at the candidate 19:00-18:30 against the booking
    18:00-19:00 of the same table and date: the candidate starts at the very
    instant the booking ends, and it is not rejected by the conflict check:
    its bounds are not in order, the store refuses the scan and the answer
    is 500. *)
Lemma boundary_touch_fails_inverted :
  let w := Scenario.booked_world in
  let b := Scenario.inverted_touching in
  let response :=
    fst (handleCreateReservation Scenario.rt' (Scenario.event b) w) in
  In Scenario.first_booking (RESERVATIONS_TABLE (db w))
  /\ same_slot_day Scenario.table5 b Scenario.first_booking = true
  /\ Body.slotTimeStart b = Reservation.slotTimeEnd Scenario.first_booking
  /\ Response.statusCode response = 500%Z
  /\ response <> already_reserved.
Proof.
  cbv zeta.
  assert (E : handleCreateReservation Scenario.rt'
                (Scenario.event Scenario.inverted_touching)
                Scenario.booked_world
              = (internal_server_error,
                 scanned Scenario.booked_world Scenario.table5
                         Scenario.inverted_touching))
    by (apply refused_between_run; reflexivity).
  rewrite E. repeat split; try reflexivity.
  - vm_compute. now left.
  - discriminate.
Qed.

(** C3, amended: with a reservations table that the conflict scan reads
    whole, a candidate whose times are in order is rejected by the conflict
    check (400, nothing written) when it starts exactly where an existing
    reservation of the same table and date ends, that reservation having
    start <= end, or when it ends exactly where an existing reservation
    starts. *)
Theorem boundary_touch_rejected rt event w b table r :
  resolved rt event w b table ->
  well_formed (Body.slotTimeStart b) (Body.slotTimeEnd b) = true ->
  read_whole (RESERVATIONS_TABLE (db w)) ->
  In r (RESERVATIONS_TABLE (db w)) ->
  same_slot_day table b r = true ->
  (well_formed (Reservation.time r) (Reservation.slotTimeEnd r) = true
   /\ Body.slotTimeStart b = Reservation.slotTimeEnd r)
  \/ Body.slotTimeEnd b = Reservation.time r ->
  let (response, w') := handleCreateReservation rt event w in
  Response.statusCode response = 400%Z
  /\ Response.body response =
     [("message",
       Str "Table is already reserved for the selected date and time")]
  /\ db w' = db w.
Proof.
  intros R Wc Whole Hin Hs Htouch.
  assert (C : Nat.ltb 0 (List.length (existingReservations w table b)) = true).
  { apply scan_nonempty. exists r. rewrite Whole. split; trivial.
    rewrite filter_is_slot_and_start, Hs. simpl.
    unfold start_within, between, well_formed in *.
    destruct Htouch as [[W E]|E].
    - rewrite E, W, (attr_le_refl_right _ _ W). apply orb_true_r.
    - rewrite <- E, Wc, (attr_le_refl_right _ _ Wc). reflexivity. }
  rewrite (run_resolved _ _ _ _ _ R), C. repeat split.
Qed.

(** Scenario 3: 19:00-20:00 against the booking 18:00-19:00. *)
Lemma boundary_touch_rejected_scenario3 :
  let b := Scenario.request (Str "19:00") (Str "20:00") in
  let (response, w') :=
    handleCreateReservation Scenario.rt' (Scenario.event b)
                            Scenario.booked_world in
  Response.statusCode response = 400%Z
  /\ Response.body response =
     [("message",
       Str "Table is already reserved for the selected date and time")]
  /\ db w' = db Scenario.booked_world.
Proof.
  cbv zeta.
  apply (boundary_touch_rejected Scenario.rt' _ Scenario.booked_world
           (Scenario.request (Str "19:00") (Str "20:00"))
           Scenario.table5 Scenario.first_booking).
  - vm_compute. repeat split.
  - reflexivity.
  - vm_compute. reflexivity.
  - vm_compute. now left.
  - reflexivity.
  - left. split; reflexivity.
Defined.

(** The symmetric case: 17:00-18:00 against the booking 18:00-19:00. *)
Example boundary_touch_before :
  fst (handleCreateReservation Scenario.rt'
         (Scenario.event (Scenario.request (Str "17:00") (Str "18:00")))
         Scenario.booked_world)
  = formatResponse 400
      [("message",
        Str "Table is already reserved for the selected date and time")].
Proof. reflexivity. Qed.

(** Where the stored reservation is itself inverted (20:00-18:00) the rule
    of the specification does not hold of 18:00-19:00 either, and the
    candidate is admitted. *)
Example inverted_booking_touch :
  let w := {| db := {| TABLES_TABLE := [Scenario.table5];
                       RESERVATIONS_TABLE := [Scenario.inverted_booking] |};
              calls := [] |} in
  let b := Scenario.request (Str "18:00") (Str "19:00") in
  overlap Scenario.inverted_booking (Str "18:00") (Str "19:00") = false
  /\ Response.statusCode
       (fst (handleCreateReservation Scenario.rt' (Scenario.event b) w))
     = 200%Z.
Proof. split; reflexivity. Qed.

(** ** The four answers *)

(** C4: when the conflict scan returns at least one reservation the handler
    answers 400 "Table is already reserved for the selected date and time";
    it has made its two scans and no write, and both tables are as they
    were. *)
Theorem conflict_answer_no_write rt event w b table :
  resolved rt event w b table ->
  existingReservations w table b <> [] ->
  let (response, w') := handleCreateReservation rt event w in
  Response.statusCode response = 400%Z
  /\ Response.body response =
     [("message",
       Str "Table is already reserved for the selected date and time")]
  /\ db w' = db w
  /\ filter is_write (new_calls w w') = []
  /\ RESERVATIONS_TABLE (db w') = RESERVATIONS_TABLE (db w).
Proof.
  intros R NE. rewrite (run_resolved _ _ _ _ _ R).
  destruct (existingReservations w table b) as [|r rs]; [contradiction|].
  simpl. repeat split.
  unfold scanned, record_call. simpl. rewrite <- app_assoc.
  now rewrite new_calls_app.
Qed.

Lemma conflict_answer_no_write_scenario2 :
  let b := Scenario.request (Str "18:30") (Str "19:30") in
  let (response, w') :=
    handleCreateReservation Scenario.rt' (Scenario.event b)
                            Scenario.booked_world in
  Response.statusCode response = 400%Z
  /\ Response.body response =
     [("message",
       Str "Table is already reserved for the selected date and time")]
  /\ db w' = db Scenario.booked_world
  /\ filter is_write (new_calls Scenario.booked_world w') = []
  /\ RESERVATIONS_TABLE (db w') = [Scenario.first_booking].
Proof.
  cbv zeta.
  apply (conflict_answer_no_write Scenario.rt' _ Scenario.booked_world
           (Scenario.request (Str "18:30") (Str "19:30")) Scenario.table5).
  - vm_compute. repeat split.
  - vm_compute. discriminate.
Defined.

(** C5: an authorized request with its four fields whose table scan is
    answered with no item gets 400 "Table not found"; the table scan is the
    only call made: no reservation is queried, none is written. *)
Theorem no_table_answer rt event w b :
  truthy (getUsernameFromToken event) = true ->
  Event.body event = Some b ->
  truthy (Body.tableNumber b) = true ->
  truthy (Body.date b) = true ->
  truthy (Body.slotTimeStart b) = true ->
  truthy (Body.slotTimeEnd b) = true ->
  store_ok rt (ScanTables (Body.tableNumber b)) = true ->
  scan (tableParams (Body.tableNumber b)) (TABLES_TABLE (db w)) = [] ->
  handleCreateReservation rt event w =
  (formatResponse 400 [("message", Str "Table not found")],
   {| db := db w; calls := calls w ++ [ScanTables (Body.tableNumber b)] |}).
Proof.
  intros Hu Hb Hn Hd Hs He Hok Ht.
  unfold handleCreateReservation, try_catch, bind, scan_tables.
  rewrite Hu, Hb. simpl. rewrite Hn, Hd, Hs, He. simpl.
  now rewrite Hok, Ht.
Qed.

(** Scenario 4: table number 7 names no table. *)
Lemma no_table_answer_scenario4 :
  handleCreateReservation Scenario.rt (Scenario.event Scenario.unknown_table)
                          Scenario.booked_world
  = (formatResponse 400 [("message", Str "Table not found")],
     {| db := db Scenario.booked_world;
        calls := calls Scenario.booked_world ++ [ScanTables (Num 7)] |}).
Proof.
  apply (no_table_answer Scenario.rt _ Scenario.booked_world
                         Scenario.unknown_table);
    reflexivity.
Defined.

(** The guard of line 271: one field that is not truthy ends the run before
    any call is made. *)
Lemma guard_run rt event w b :
  truthy (getUsernameFromToken event) = true ->
  Event.body event = Some b ->
  truthy (Body.tableNumber b) = false \/ truthy (Body.date b) = false
  \/ truthy (Body.slotTimeStart b) = false
  \/ truthy (Body.slotTimeEnd b) = false ->
  handleCreateReservation rt event w = (fields_required, w).
Proof.
  intros Hu Hb Hfalsy.
  unfold handleCreateReservation, try_catch, bind.
  rewrite Hu, Hb. simpl.
  destruct Hfalsy as [E|[E|[E|E]]]; rewrite E; simpl;
    repeat rewrite orb_true_r; reflexivity.
Qed.

(** C6, as stated, at an authorized request that has no body at all: it
    lacks the four required fields, and the answer is not the 400 of the
    required fields but 500, the parse of line 268 having thrown into the
    catch of lines 333-335. *)
Lemma missing_field_fails_no_body :
  let event := {| Event.claims := Some (Str "ann"); Event.body := None |} in
  let response :=
    fst (handleCreateReservation Scenario.rt event Scenario.booked_world) in
  truthy (getUsernameFromToken event) = true
  /\ Response.statusCode response = 500%Z
  /\ Response.body response = [("message", Str "Internal Server Error")]
  /\ Response.statusCode response <> 400%Z.
Proof.
  cbv zeta. repeat split. discriminate.
Qed.

(** C6, amended: an authorized request that lacks tableNumber, date,
    slotTimeStart or slotTimeEnd is answered before any call to either
    table, the world being untouched: 400 with the required-fields message
    when its body can be parsed and destructured, 500 "Internal Server Error"
    when it cannot (no body, the body null). *)
Theorem missing_field_answer rt event w :
  truthy (getUsernameFromToken event) = true ->
  (forall b, Event.body event = Some b ->
             Body.tableNumber b = Undefined \/ Body.date b = Undefined
             \/ Body.slotTimeStart b = Undefined
             \/ Body.slotTimeEnd b = Undefined) ->
  let (response, w') := handleCreateReservation rt event w in
  w' = w
  /\ match Event.body event with
     | Some _ =>
         Response.statusCode response = 400%Z
         /\ Response.body response =
            [("message",
              Str "Table number, date, slotTimeStart, and slotTimeEnd are required")]
     | None =>
         Response.statusCode response = 500%Z
         /\ Response.body response = [("message", Str "Internal Server Error")]
     end.
Proof.
  intros Hu Hmiss.
  destruct (Event.body event) as [b|] eqn:Hb.
  - rewrite (guard_run rt event w b Hu Hb).
    + repeat split.
    + destruct (Hmiss b eq_refl) as [E|[E|[E|E]]]; rewrite E; simpl; tauto.
  - unfold handleCreateReservation, try_catch, bind.
    rewrite Hu, Hb. simpl. repeat split.
Qed.

(** Scenario 5: the request carries no date. *)
Lemma missing_field_answer_scenario5 :
  let (response, w') :=
    handleCreateReservation Scenario.rt (Scenario.event Scenario.no_date)
                            Scenario.booked_world in
  w' = Scenario.booked_world
  /\ Response.statusCode response = 400%Z
  /\ Response.body response =
     [("message",
       Str "Table number, date, slotTimeStart, and slotTimeEnd are required")].
Proof.
  apply (missing_field_answer Scenario.rt (Scenario.event Scenario.no_date)
                              Scenario.booked_world eq_refl).
  intros b [= <-]. right; left; reflexivity.
Defined.

(** C7: an authorized request with its four fields, whose table number
    resolves and whose conflict scan returns nothing, has exactly one record
    added to the reservations: the reservation built from the request, under
    the identifier just drawn (one no stored reservation bears) and stamped
    with the current instant; the put is accepted by the store, and the
    answer is 200 with that identifier and "Reservation created
    successfully". *)
Theorem created_answer rt event w b table :
  resolved rt event w b table ->
  existingReservations w table b = [] ->
  (forall r, In r (RESERVATIONS_TABLE (db w)) ->
             Reservation.id r <> uuidv4 rt) ->
  store_ok rt (PutReservation
                 (reservation_of rt (getUsernameFromToken event) table b))
  = true ->
  let item := reservation_of rt (getUsernameFromToken event) table b in
  let (response, w') := handleCreateReservation rt event w in
  Response.statusCode response = 200%Z
  /\ Response.body response =
     [("reservationId", Str (uuidv4 rt));
      ("message", Str "Reservation created successfully")]
  /\ Reservation.id item = uuidv4 rt
  /\ Reservation.createdAt item = toISOString rt
  /\ RESERVATIONS_TABLE (db w') = RESERVATIONS_TABLE (db w) ++ [item]
  /\ TABLES_TABLE (db w') = TABLES_TABLE (db w)
  /\ filter is_write (new_calls w w') = [PutReservation item].
Proof.
  intros R E F Hok. rewrite (created_run _ _ _ _ _ R E Hok).
  simpl. repeat split.
  - now apply put_fresh.
  - unfold scanned, record_call. simpl. rewrite <- !app_assoc.
    now rewrite new_calls_app.
Qed.

(** Scenario 1: 18:00-19:00 on table 5, nothing booked yet. *)
Lemma created_answer_scenario1 :
  let b := Scenario.request (Str "18:00") (Str "19:00") in
  let (response, w') :=
    handleCreateReservation Scenario.rt (Scenario.event b)
                            Scenario.empty_world in
  Response.statusCode response = 200%Z
  /\ Response.body response =
     [("reservationId", Str "3f2b0c9e-2d6a-4c57-9a41-5f0e8f1d7a10");
      ("message", Str "Reservation created successfully")]
  /\ RESERVATIONS_TABLE (db w') = [Scenario.first_booking].
Proof.
  cbv zeta.
  pose proof (created_answer Scenario.rt
                (Scenario.event (Scenario.request (Str "18:00") (Str "19:00")))
                Scenario.empty_world
                (Scenario.request (Str "18:00") (Str "19:00"))
                Scenario.table5) as H.
  cbv zeta in H.
  destruct (handleCreateReservation _ _ _) as [response w'].
  destruct H as (H1 & H2 & _ & _ & H5 & _).
  - vm_compute. repeat split.
  - reflexivity.
  - intros r [].
  - reflexivity.
  - split; [exact H1|split; [exact H2|exact H5]].
Defined.

(** ** Which table, and which fields *)

(** C8: when the table scan returns several tables, the run is decided by the
    first one alone.  Two worlds with the same reservations and recorded
    calls, whose table scans begin with the same [table], give the same
    answer, the same reservations and the same calls; the conflict scan is
    made for the identifier of [table], and a reservation that is put
    carries it. *)
Theorem first_match_wins rt event w1 w2 b table :
  resolved rt event w1 b table ->
  resolved rt event w2 b table ->
  RESERVATIONS_TABLE (db w1) = RESERVATIONS_TABLE (db w2) ->
  calls w1 = calls w2 ->
  let (response1, w1') := handleCreateReservation rt event w1 in
  let (response2, w2') := handleCreateReservation rt event w2 in
  response1 = response2
  /\ RESERVATIONS_TABLE (db w1') = RESERVATIONS_TABLE (db w2')
  /\ calls w1' = calls w2'
  /\ firstn 2 (new_calls w1 w1') =
     [ScanTables (Body.tableNumber b);
      ScanReservations (TableItem.id table) (Body.date b)
                       (Body.slotTimeStart b) (Body.slotTimeEnd b)]
  /\ (forall item, In (PutReservation item) (new_calls w1 w1') ->
                   Reservation.tableId item = TableItem.id table).
Proof.
  intros R1 R2 ER EC.
  rewrite (run_resolved _ _ _ _ _ R1), (run_resolved _ _ _ _ _ R2).
  unfold existingReservations, scanned, record_call. simpl.
  rewrite <- ER, <- EC.
  set (found := scan _ (RESERVATIONS_TABLE (db w1))).
  set (item := reservation_of rt (getUsernameFromToken event) table b).
  assert (P : forall it, PutReservation it = PutReservation item ->
                         Reservation.tableId it = TableItem.id table)
    by (intros it [= ->]; reflexivity).
  destruct (Nat.ltb 0 (List.length found));
    [|destruct (store_ok rt (PutReservation item)); simpl];
    rewrite <- ?app_assoc, new_calls_app; simpl; repeat split; trivial.
  - intros it [H|[H|[]]]; discriminate.
  - intros it [H|[H|[H|[]]]]; try discriminate. now apply P.
  - intros it [H|[H|[H|[]]]]; try discriminate. now apply P.
Qed.

(** The tables [t-5] and [t-5-bis] both bear number 5; with [t-5] first the
    run is the one of the world that holds [t-5] alone. *)
Lemma first_match_wins_scenario :
  let b := Scenario.request (Str "18:30") (Str "19:30") in
  let both :=
    {| db := {| TABLES_TABLE := [Scenario.table5; Scenario.table5'];
                RESERVATIONS_TABLE := RESERVATIONS_TABLE
                                        (db Scenario.booked_world) |};
       calls := calls Scenario.booked_world |} in
  fst (handleCreateReservation Scenario.rt' (Scenario.event b) both)
  = fst (handleCreateReservation Scenario.rt' (Scenario.event b)
           Scenario.booked_world).
Proof.
  cbv zeta.
  pose proof (first_match_wins Scenario.rt'
                (Scenario.event (Scenario.request (Str "18:30") (Str "19:30")))
                {| db := {| TABLES_TABLE := [Scenario.table5; Scenario.table5'];
                            RESERVATIONS_TABLE :=
                              RESERVATIONS_TABLE (db Scenario.booked_world) |};
                   calls := calls Scenario.booked_world |}
                Scenario.booked_world
                (Scenario.request (Str "18:30") (Str "19:30"))
                Scenario.table5) as H.
  destruct (handleCreateReservation _ _ {| db := _ |}) as [response1 w1'].
  destruct (handleCreateReservation _ _ Scenario.booked_world)
    as [response2 w2'].
  simpl. apply H.
  - vm_compute. repeat split.
  - vm_compute. repeat split.
  - reflexivity.
  - reflexivity.
Defined.

(** C9: the number 0 as tableNumber, or the empty string as date,
    slotTimeStart or slotTimeEnd, is answered as an absent field is: 400 with
    the required-fields message, the world untouched, whatever else the
    request holds. *)
Theorem falsy_field_answer rt event w b :
  truthy (getUsernameFromToken event) = true ->
  Event.body event = Some b ->
  Body.tableNumber b = Num 0 \/ Body.date b = Str EmptyString
  \/ Body.slotTimeStart b = Str EmptyString
  \/ Body.slotTimeEnd b = Str EmptyString ->
  handleCreateReservation rt event w =
  (formatResponse 400
     [("message",
       Str "Table number, date, slotTimeStart, and slotTimeEnd are required")],
   w)
  /\ forall b',
      Body.tableNumber b' = Undefined \/ Body.date b' = Undefined
      \/ Body.slotTimeStart b' = Undefined \/ Body.slotTimeEnd b' = Undefined ->
      handleCreateReservation rt
        {| Event.claims := Event.claims event; Event.body := Some b' |} w
      = handleCreateReservation rt event w.
Proof.
  intros Hu Hb Hfalsy.
  assert (E : handleCreateReservation rt event w = (fields_required, w)).
  { apply (guard_run rt event w b Hu Hb).
    destruct Hfalsy as [E|[E|[E|E]]]; rewrite E; simpl; tauto. }
  split; [exact E|].
  intros b' Hmiss. rewrite E.
  apply (guard_run rt _ w b'); [exact Hu|reflexivity|].
  destruct Hmiss as [E'|[E'|[E'|E']]]; rewrite E'; simpl; tauto.
Qed.

Lemma falsy_field_answer_table0 :
  handleCreateReservation Scenario.rt (Scenario.event Scenario.table_zero)
                          Scenario.empty_world
  = handleCreateReservation Scenario.rt (Scenario.event Scenario.no_date)
                            Scenario.empty_world.
Proof.
  symmetry.
  apply (proj2 (falsy_field_answer Scenario.rt
                  (Scenario.event Scenario.table_zero)
                  Scenario.empty_world Scenario.table_zero eq_refl eq_refl
                  (or_introl eq_refl))
               Scenario.no_date).
  right; left; reflexivity.
Defined.

(** ** Frame *)

Lemma world_eta w : w = {| db := db w; calls := calls w ++ [] |}.
Proof. destruct w. simpl. now rewrite app_nil_r. Qed.

(** Off the success path the store is as it was; at most one put has been
    attempted (and was refused). *)
Lemma not_created_run rt event w :
  Response.statusCode (fst (handleCreateReservation rt event w)) <> 200%Z ->
  exists l,
    snd (handleCreateReservation rt event w)
    = {| db := db w; calls := calls w ++ l |}
    /\ List.length (filter is_write l) <= 1.
Proof.
  unfold handleCreateReservation, try_catch, bind.
  destruct (truthy (getUsernameFromToken event)); simpl;
    [|intros _; exists []; split; [apply world_eta|simpl; lia]].
  destruct (Event.body event) as [b|]; simpl;
    [|intros _; exists []; split; [apply world_eta|simpl; lia]].
  destruct (negb (truthy (Body.tableNumber b)) || negb (truthy (Body.date b))
            || negb (truthy (Body.slotTimeStart b))
            || negb (truthy (Body.slotTimeEnd b))); simpl;
    [intros _; exists []; split; [apply world_eta|simpl; lia]|].
  unfold scan_tables, record_call.
  destruct (store_ok rt (ScanTables _)); simpl;
    [|intros _; eexists [_]; split; [reflexivity|simpl; lia]].
  destruct (scan (tableParams _) _) as [|table rest]; simpl;
    [intros _; eexists [_]; split; [reflexivity|simpl; lia]|].
  unfold scan_reservations, record_call.
  destruct (store_ok rt (ScanReservations _ _ _ _)); simpl;
    [|intros _; eexists [_; _]; rewrite <- app_assoc;
      split; [reflexivity|simpl; lia]].
  destruct (attr_le (Body.slotTimeStart b) (Body.slotTimeEnd b)); simpl;
    [|intros _; eexists [_; _]; rewrite <- app_assoc;
      split; [reflexivity|simpl; lia]].
  destruct (scan (reservationCheckParams _ _ _ _) _) as [|r rs]; simpl;
    [|intros _; eexists [_; _]; rewrite <- app_assoc;
      split; [reflexivity|simpl; lia]].
  unfold put_reservation, record_call.
  destruct (store_ok rt (PutReservation _)); simpl; [congruence|].
  intros _; eexists [_; _; _]; rewrite <- !app_assoc.
  split; [reflexivity|simpl; lia].
Qed.

(** C10: on every path of the handler the table records are as they were and
    every reservation that was stored is still stored, unchanged and in
    place, the identifier drawn being one no stored reservation bears.  A
    reservation is added only when the answer is 200, and it is the one item
    of the one put; on every other path nothing in the store has changed and
    at most one put has been tried. *)
Theorem only_write_is_the_put rt event w :
  (forall r, In r (RESERVATIONS_TABLE (db w)) ->
             Reservation.id r <> uuidv4 rt) ->
  let (response, w') := handleCreateReservation rt event w in
  TABLES_TABLE (db w') = TABLES_TABLE (db w)
  /\ (exists added,
         RESERVATIONS_TABLE (db w') = RESERVATIONS_TABLE (db w) ++ added)
  /\ List.length (filter is_write (new_calls w w')) <= 1
  /\ (Response.statusCode response <> 200%Z -> db w' = db w)
  /\ (Response.statusCode response = 200%Z ->
      exists item,
        RESERVATIONS_TABLE (db w') = RESERVATIONS_TABLE (db w) ++ [item]
        /\ Reservation.id item = uuidv4 rt
        /\ filter is_write (new_calls w w') = [PutReservation item]).
Proof.
  intros F.
  destruct (Z.eq_dec
              (Response.statusCode (fst (handleCreateReservation rt event w)))
              200) as [Ok|Ko].
  - destruct (created_inv _ _ _ Ok) as (b & table & R & E & Hok).
    rewrite (created_run _ _ _ _ _ R E Hok). cbv beta iota.
    set (item := reservation_of rt (getUsernameFromToken event) table b).
    assert (W : filter is_write
                  (new_calls w
                     {| db := {| TABLES_TABLE := TABLES_TABLE (db w);
                                 RESERVATIONS_TABLE :=
                                   put Reservation.id item
                                       (RESERVATIONS_TABLE (db w)) |};
                        calls := calls (scanned w table b)
                                 ++ [PutReservation item] |})
                = [PutReservation item]).
    { unfold scanned, record_call. simpl. rewrite <- !app_assoc.
      now rewrite new_calls_app. }
    rewrite W, (put_fresh Reservation.id item _ F). simpl.
    repeat split; trivial.
    + now exists [item].
    + congruence.
    + intros _. now exists item.
  - destruct (not_created_run _ _ _ Ko) as (l & Hw & Hl).
    destruct (handleCreateReservation rt event w) as [response w'].
    simpl in *. subst w'. rewrite new_calls_app. simpl.
    repeat split; trivial.
    + exists []. now rewrite app_nil_r.
    + intros; contradiction.
Qed.

(** The candidate 18:30-17:00 against the booked store: not admitted, and the
    booking of scenario 1 is still the one stored reservation. *)
Lemma only_write_is_the_put_scenario :
  let (response, w') :=
    handleCreateReservation Scenario.rt' (Scenario.event Scenario.inverted)
                            Scenario.booked_world in
  TABLES_TABLE (db w') = [Scenario.table5]
  /\ (exists added,
         RESERVATIONS_TABLE (db w') = [Scenario.first_booking] ++ added).
Proof.
  pose proof (only_write_is_the_put Scenario.rt'
                (Scenario.event Scenario.inverted) Scenario.booked_world) as H.
  destruct (handleCreateReservation _ _ _) as [response w'].
  destruct H as (H1 & H2 & _).
  - intros r Hin. vm_compute in Hin. destruct Hin as [<-|[]].
    vm_compute. discriminate.
  - split; [exact H1|exact H2].
Defined.

(** * Further properties of [handleCreateReservation] *)

(** ** The paths before the table scan *)

(** X1: Without a truthy user name in the token's claims the answer is 401
    "Unauthorized", whatever the body is (it is not even parsed), and nothing
    has been called or changed. *)
Theorem unauthorized_answer rt event w :
  truthy (getUsernameFromToken event) = false ->
  handleCreateReservation rt event w =
  (formatResponse 401 [("message", Str "Unauthorized")], w).
Proof.
  intros Hu. unfold handleCreateReservation, try_catch. now rewrite Hu.
Qed.

Lemma unauthorized_answer_no_claims :
  handleCreateReservation Scenario.rt
    {| Event.claims := None;
       Event.body := Some (Scenario.request (Str "18:00") (Str "19:00")) |}
    Scenario.empty_world
  = (formatResponse 401 [("message", Str "Unauthorized")],
     Scenario.empty_world).
Proof.
  apply (unauthorized_answer Scenario.rt _ Scenario.empty_world).
  reflexivity.
Defined.

(** X2: A body that cannot be parsed and destructured is caught by the handler's
    own [catch]: 500 "Internal Server Error", nothing called or changed. *)
Theorem unparsable_body_answer rt event w :
  truthy (getUsernameFromToken event) = true ->
  Event.body event = None ->
  handleCreateReservation rt event w =
  (formatResponse 500 [("message", Str "Internal Server Error")], w).
Proof.
  intros Hu Hb. unfold handleCreateReservation, try_catch, bind.
  now rewrite Hu, Hb.
Qed.

Lemma unparsable_body_answer_scenario :
  handleCreateReservation Scenario.rt
    {| Event.claims := Some (Str "ann"); Event.body := None |}
    Scenario.booked_world
  = (formatResponse 500 [("message", Str "Internal Server Error")],
     Scenario.booked_world).
Proof.
  apply (unparsable_body_answer Scenario.rt _ Scenario.booked_world);
    reflexivity.
Defined.

(** ** A store that refuses a call *)

(** X3: Whichever of the three calls the store refuses, the answer is 500
    "Internal Server Error", the run stops at that call, and both tables are
    as they were. *)
Theorem refused_call_answer rt event w b :
  truthy (getUsernameFromToken event) = true ->
  Event.body event = Some b ->
  truthy (Body.tableNumber b) = true ->
  truthy (Body.date b) = true ->
  truthy (Body.slotTimeStart b) = true ->
  truthy (Body.slotTimeEnd b) = true ->
  (store_ok rt (ScanTables (Body.tableNumber b)) = false
   \/ (exists table,
          resolved rt event w b table
          /\ existingReservations w table b = []
          /\ store_ok rt (PutReservation
                            (reservation_of rt (getUsernameFromToken event)
                                            table b)) = false)
   \/ (exists table,
          store_ok rt (ScanTables (Body.tableNumber b)) = true
          /\ hd_error (scan (tableParams (Body.tableNumber b))
                            (TABLES_TABLE (db w))) = Some table
          /\ store_ok rt (ScanReservations (TableItem.id table) (Body.date b)
                            (Body.slotTimeStart b) (Body.slotTimeEnd b))
             = false)) ->
  let (response, w') := handleCreateReservation rt event w in
  response = formatResponse 500 [("message", Str "Internal Server Error")]
  /\ db w' = db w
  /\ exists answered c,
      new_calls w w' = answered ++ [c]
      /\ store_ok rt c = false
      /\ Forall (fun x => store_ok rt x = true) answered.
Proof.
  intros Hu Hb Hn Hd Hs He [Hko|[(table & R & E & Hko)|(table & Hok & Ht & Hko)]].
  - unfold handleCreateReservation, try_catch, bind, scan_tables.
    rewrite Hu, Hb. simpl. rewrite Hn, Hd, Hs, He. simpl. rewrite Hko.
    repeat split. exists [], (ScanTables (Body.tableNumber b)).
    unfold record_call. rewrite new_calls_app. auto.
  - rewrite (run_resolved _ _ _ _ _ R), E. simpl. rewrite Hko.
    destruct R as (_ & _ & _ & _ & _ & _ & Hok1 & _ & Hok2 & _).
    repeat split.
    eexists [_; _], _.
    unfold scanned, record_call. simpl.
    rewrite <- !app_assoc, new_calls_app. simpl. repeat split; auto.
  - apply hd_error_cons in Ht as [rest Ht].
    unfold handleCreateReservation, try_catch, bind, scan_tables,
      scan_reservations.
    rewrite Hu, Hb. simpl. rewrite Hn, Hd, Hs, He. simpl.
    rewrite Hok, Ht. simpl. rewrite Hko.
    repeat split.
    eexists [_], _.
    unfold record_call. simpl.
    rewrite <- !app_assoc, new_calls_app. simpl. repeat split; auto.
Qed.

Lemma refused_call_answer_put_refused :
  let rt := {| uuidv4 := uuidv4 Scenario.rt;
               toISOString := toISOString Scenario.rt;
               store_ok := fun c => negb (is_write c) |} in
  let b := Scenario.request (Str "18:00") (Str "19:00") in
  let (response, w') :=
    handleCreateReservation rt (Scenario.event b) Scenario.empty_world in
  response = formatResponse 500 [("message", Str "Internal Server Error")]
  /\ db w' = db Scenario.empty_world.
Proof.
  cbv zeta.
  pose proof (refused_call_answer
                {| uuidv4 := uuidv4 Scenario.rt;
                   toISOString := toISOString Scenario.rt;
                   store_ok := fun c => negb (is_write c) |}
                (Scenario.event (Scenario.request (Str "18:00") (Str "19:00")))
                Scenario.empty_world
                (Scenario.request (Str "18:00") (Str "19:00"))
                eq_refl eq_refl eq_refl eq_refl eq_refl eq_refl) as H.
  destruct (handleCreateReservation _ _ _) as [response w'].
  destruct H as (H1 & H2 & _); [|split; assumption].
  right; left. exists Scenario.table5. vm_compute. repeat split.
Defined.


(** ** Running the handler again *)

Lemma put_In_inv {Item} (key : Item -> string) (it x : Item)
      (tbl : list Item) :
  In x (put key it tbl) -> x = it \/ In x tbl.
Proof.
  induction tbl as [|y tbl IH]; simpl.
  - intros [<-|[]]. now left.
  - destruct (String.eqb (key y) (key it)); simpl.
    + intros [<-|H]; auto.
    + intros [<-|H]; auto. destruct (IH H); auto.
Qed.

Lemma attr_le_refl_left (a b : value) :
  attr_le a b = true -> attr_le a a = true.
Proof.
  destruct a, b; simpl; try congruence; intros _.
  - apply Z.leb_refl.
  - apply string_leb_refl.
Qed.

Lemma attr_eq_eq (a b : value) : attr_eq a b = true -> a = b.
Proof.
  destruct a, b; simpl; try congruence.
  - intros H. now apply Bool.eqb_prop in H as ->.
  - intros H. now apply Z.eqb_eq in H as ->.
  - intros H. now apply String.eqb_eq in H as ->.
Qed.

(** Being resolved depends on the tables and on what the store answers, not
    on the reservations or on the calls recorded so far. *)
Lemma resolved_same_tables rt event w w' b table :
  TABLES_TABLE (db w') = TABLES_TABLE (db w) ->
  resolved rt event w b table -> resolved rt event w' b table.
Proof.
  unfold resolved. intros ->. tauto.
Qed.

(** X4: A request refused as a conflict is refused again when it is sent again:
    the refusal has left the reservations as they were, so the second run
    finds what the first one found. *)
Theorem conflict_is_stable rt rt' event w b table :
  resolved rt event w b table ->
  resolved rt' event w b table ->
  existingReservations w table b <> [] ->
  let w' := snd (handleCreateReservation rt event w) in
  fst (handleCreateReservation rt event w) = already_reserved
  /\ fst (handleCreateReservation rt' event w') = already_reserved
  /\ db (snd (handleCreateReservation rt' event w')) = db w.
Proof.
  intros R R' NE. cbv zeta.
  assert (C : Nat.ltb 0 (List.length (existingReservations w table b)) = true)
    by (destruct (existingReservations w table b); [contradiction|reflexivity]).
  rewrite (run_resolved _ _ _ _ _ R), C. simpl.
  assert (R2 : resolved rt' event (scanned w table b) b table)
    by (apply (resolved_same_tables _ _ w); trivial).
  rewrite (run_resolved _ _ _ _ _ R2).
  change (existingReservations (scanned w table b) table b)
    with (existingReservations w table b).
  rewrite C. repeat split.
Qed.

Lemma conflict_is_stable_scenario2 :
  let b := Scenario.request (Str "18:30") (Str "19:30") in
  let w' := snd (handleCreateReservation Scenario.rt' (Scenario.event b)
                   Scenario.booked_world) in
  fst (handleCreateReservation Scenario.rt (Scenario.event b) w')
  = already_reserved.
Proof.
  cbv zeta.
  apply (conflict_is_stable Scenario.rt' Scenario.rt
           (Scenario.event (Scenario.request (Str "18:30") (Str "19:30")))
           Scenario.booked_world
           (Scenario.request (Str "18:30") (Str "19:30")) Scenario.table5).
  - vm_compute. repeat split.
  - vm_compute. repeat split.
  - vm_compute. discriminate.
Defined.

(** X5: the same request sent again after it was admitted is refused as a
    conflict (400, nothing written), the store answering its scans and the
    reservations table, with the record of the first admission in it, being
    read whole by the conflict scan. *)
Theorem resubmission_refused rt rt' event w b :
  Event.body event = Some b ->
  Response.statusCode (fst (handleCreateReservation rt event w)) = 200%Z ->
  store_ok rt' (ScanTables (Body.tableNumber b)) = true ->
  (forall tableId,
      store_ok rt' (ScanReservations tableId (Body.date b)
                                     (Body.slotTimeStart b)
                                     (Body.slotTimeEnd b)) = true) ->
  read_whole
    (RESERVATIONS_TABLE (db (snd (handleCreateReservation rt event w)))) ->
  let w' := snd (handleCreateReservation rt event w) in
  let (response, w'') := handleCreateReservation rt' event w' in
  Response.statusCode response = 400%Z
  /\ Response.body response =
     [("message",
       Str "Table is already reserved for the selected date and time")]
  /\ db w'' = db w'.
Proof.
  intros Hb H200 Hok1 Hok2 Hwhole. cbv zeta.
  apply created_inv in H200 as (b' & table & R & E & Hok).
  assert (b' = b) by (destruct R as (_ & Hb' & _); congruence). subst b'.
  rewrite (created_run _ _ _ _ _ R E Hok) in Hwhole |- *.
  simpl in Hwhole |- *.
  set (item := reservation_of rt (getUsernameFromToken event) table b) in *.
  set (w' := {| db := _; calls := _ |}).
  assert (R' : resolved rt' event w' b table).
  { destruct R as (Hu & Hb' & Hn & Hd & Hs & He & _ & Ht & _ & Hwf).
    repeat split; trivial. }
  assert (K : Nat.ltb 0 (List.length (existingReservations w' table b))
              = true).
  { apply scan_nonempty. exists item. split.
    - unfold w'. simpl. rewrite Hwhole. apply put_In.
    - rewrite filter_is_slot_and_start.
      unfold same_slot_day, start_within, between, item. simpl.
      destruct R as (_ & _ & _ & Hd & _ & _ & _ & _ & _ & Hwf).
      unfold well_formed in Hwf.
      rewrite String.eqb_refl, (attr_eq_truthy_refl _ Hd), Hwf,
        (attr_le_refl_left _ _ Hwf).
      reflexivity. }
  rewrite (run_resolved _ _ _ _ _ R'), K. repeat split.
Qed.

Lemma resubmission_refused_scenario1 :
  let b := Scenario.request (Str "18:00") (Str "19:00") in
  let (response, w'') :=
    handleCreateReservation Scenario.rt' (Scenario.event b)
                            Scenario.booked_world in
  Response.statusCode response = 400%Z
  /\ Response.body response =
     [("message",
       Str "Table is already reserved for the selected date and time")]
  /\ db w'' = db Scenario.booked_world.
Proof.
  cbv zeta.
  apply (resubmission_refused Scenario.rt Scenario.rt'
           (Scenario.event (Scenario.request (Str "18:00") (Str "19:00")))
           Scenario.empty_world
           (Scenario.request (Str "18:00") (Str "19:00")));
    reflexivity.
Defined.

(** ** What does not stand in the way *)

(** X6: Reservations of other tables and of other dates never block: when no
    stored reservation has both the candidate's tableId and its date, a
    candidate whose times are in order (start <= end, so that the store
    answers the conflict scan) is admitted, whatever the times of the stored
    reservations. *)
Theorem other_slots_do_not_block rt event w b table :
  resolved rt event w b table ->
  well_formed (Body.slotTimeStart b) (Body.slotTimeEnd b) = true ->
  (forall r, In r (RESERVATIONS_TABLE (db w)) ->
             same_slot_day table b r = false) ->
  store_ok rt (PutReservation
                 (reservation_of rt (getUsernameFromToken event) table b))
  = true ->
  let response := fst (handleCreateReservation rt event w) in
  Response.statusCode response = 200%Z
  /\ Response.body response =
     [("reservationId", Str (uuidv4 rt));
      ("message", Str "Reservation created successfully")].
Proof.
  intros R _ Hother Hok.
  assert (E : existingReservations w table b = []).
  { unfold existingReservations.
    destruct (scan _ (RESERVATIONS_TABLE (db w))) as [|r rs] eqn:S; trivial.
    assert (Hin : In r (scan (reservationCheckParams (TableItem.id table)
                                (Body.date b) (Body.slotTimeStart b)
                                (Body.slotTimeEnd b))
                             (RESERVATIONS_TABLE (db w))))
      by (rewrite S; now left).
    apply filter_In in Hin as [Hin Hf]. apply page_incl in Hin.
    rewrite filter_is_slot_and_start, (Hother r Hin) in Hf. discriminate. }
  cbv zeta. rewrite (created_run _ _ _ _ _ R E Hok). split; reflexivity.
Qed.

(** The very slot of scenario 1, asked for the next day. *)
Lemma other_slots_do_not_block_next_day :
  let b := {| Body.tableNumber := Num 5;
              Body.clientName := Str "Bob";
              Body.phoneNumber := Str "555-0101";
              Body.date := Str "2024-06-02";
              Body.slotTimeStart := Str "18:00";
              Body.slotTimeEnd := Str "19:00" |} in
  let response :=
    fst (handleCreateReservation Scenario.rt' (Scenario.event b)
           Scenario.booked_world) in
  Response.statusCode response = 200%Z
  /\ Response.body response =
     [("reservationId", Str (uuidv4 Scenario.rt'));
      ("message", Str "Reservation created successfully")].
Proof.
  intros b.
  apply (other_slots_do_not_block Scenario.rt' _ Scenario.booked_world b
                                  Scenario.table5).
  - vm_compute. repeat split.
  - reflexivity.
  - intros r Hin. vm_compute in Hin. destruct Hin as [<-|[]]. reflexivity.
  - reflexivity.
Defined.

(** X7: A table number sent as a string does not resolve against tables whose
    numbers are numbers: the comparison of the filter is between values of
    one type, so "5" is not 5 and the answer is "Table not found". *)
Theorem string_table_number_not_found rt event w b s :
  truthy (getUsernameFromToken event) = true ->
  Event.body event = Some b ->
  Body.tableNumber b = Str s ->
  s <> EmptyString ->
  truthy (Body.date b) = true ->
  truthy (Body.slotTimeStart b) = true ->
  truthy (Body.slotTimeEnd b) = true ->
  store_ok rt (ScanTables (Str s)) = true ->
  (forall t, In t (TABLES_TABLE (db w)) ->
             exists n, TableItem.number t = Num n) ->
  fst (handleCreateReservation rt event w) = table_not_found.
Proof.
  intros Hu Hb Hn Hs Hd Hst He Hok Hnum.
  assert (E : scan (tableParams (Str s)) (TABLES_TABLE (db w)) = []).
  { destruct (scan (tableParams (Str s)) (TABLES_TABLE (db w)))
      as [|t ts] eqn:F; trivial.
    assert (Hin : In t (scan (tableParams (Str s)) (TABLES_TABLE (db w))))
      by (rewrite F; now left).
    apply filter_In in Hin as [Hin Hf]. apply page_incl in Hin.
    destruct (Hnum t Hin) as [n Hn']. unfold tableParams in Hf.
    rewrite Hn' in Hf. discriminate. }
  unfold handleCreateReservation, try_catch, bind, scan_tables.
  rewrite Hu, Hb. simpl. rewrite Hn, Hd, Hst, He. simpl.
  destruct (String.eqb_spec s EmptyString) as [->|_]; [contradiction|]. simpl.
  now rewrite Hok, E.
Qed.

Lemma string_table_number_not_found_five :
  let b := {| Body.tableNumber := Str "5";
              Body.clientName := Str "Ann";
              Body.phoneNumber := Str "555-0100";
              Body.date := Str "2024-06-01";
              Body.slotTimeStart := Str "20:00";
              Body.slotTimeEnd := Str "21:00" |} in
  fst (handleCreateReservation Scenario.rt (Scenario.event b)
         Scenario.empty_world)
  = table_not_found.
Proof.
  intros b.
  apply (string_table_number_not_found Scenario.rt _ Scenario.empty_world b "5");
    try reflexivity.
  - discriminate.
  - intros t [<-|[]]. now exists 5%Z.
Defined.

(** ** What is stored *)

(** X8: After a 200 the reservations hold a record with the request's own
    tableNumber, date, start, end, client name and phone number, the user
    name of the token, and the tableId of a stored table that bears that
    number. *)
Theorem created_record_matches_request rt event w b :
  Event.body event = Some b ->
  Response.statusCode (fst (handleCreateReservation rt event w)) = 200%Z ->
  exists r table,
    In r (RESERVATIONS_TABLE (db (snd (handleCreateReservation rt event w))))
    /\ In table (TABLES_TABLE (db w))
    /\ TableItem.number table = Body.tableNumber b
    /\ Reservation.tableId r = TableItem.id table
    /\ Reservation.tableNumber r = Body.tableNumber b
    /\ Reservation.date r = Body.date b
    /\ Reservation.time r = Body.slotTimeStart b
    /\ Reservation.slotTimeEnd r = Body.slotTimeEnd b
    /\ Reservation.clientName r = Body.clientName b
    /\ Reservation.phoneNumber r = Body.phoneNumber b
    /\ Reservation.username r = getUsernameFromToken event
    /\ Reservation.id r = uuidv4 rt
    /\ Reservation.createdAt r = toISOString rt.
Proof.
  intros Hb H200.
  apply created_inv in H200 as (b' & table & R & E & Hok).
  assert (b' = b) by (destruct R as (_ & Hb' & _); congruence). subst b'.
  rewrite (created_run _ _ _ _ _ R E Hok). simpl.
  exists (reservation_of rt (getUsernameFromToken event) table b), table.
  destruct R as (_ & _ & _ & _ & _ & _ & _ & Ht & _).
  apply hd_error_cons in Ht as [rest Ht].
  assert (Hin : In table (scan (tableParams (Body.tableNumber b))
                               (TABLES_TABLE (db w))))
    by (rewrite Ht; now left).
  apply filter_In in Hin as [Hin Hf]. apply attr_eq_eq in Hf.
  apply page_incl in Hin.
  simpl. repeat split; trivial. apply put_In.
Qed.

Lemma created_record_matches_request_scenario1 :
  exists r table,
    In r (RESERVATIONS_TABLE (db Scenario.booked_world))
    /\ In table [Scenario.table5]
    /\ TableItem.number table = Num 5
    /\ Reservation.tableId r = TableItem.id table
    /\ Reservation.tableNumber r = Num 5
    /\ Reservation.date r = Str "2024-06-01"
    /\ Reservation.time r = Str "18:00"
    /\ Reservation.slotTimeEnd r = Str "19:00"
    /\ Reservation.clientName r = Str "Ann"
    /\ Reservation.phoneNumber r = Str "555-0100"
    /\ Reservation.username r = Str "ann"
    /\ Reservation.id r = uuidv4 Scenario.rt
    /\ Reservation.createdAt r = toISOString Scenario.rt.
Proof.
  apply (created_record_matches_request Scenario.rt
           (Scenario.event (Scenario.request (Str "18:00") (Str "19:00")))
           Scenario.empty_world
           (Scenario.request (Str "18:00") (Str "19:00")));
    reflexivity.
Defined.

(** * The regular expressions of [handleSignup] *)

(** ** [matches] decides the strings of a pattern *)

Module RegExpFacts.
Import RegExp.

Lemma nullable_lang r : nullable r = true <-> lang r [].
Proof.
  induction r as [| |p|a IHa b IHb|a IHa b IHb|a IHa b IHb|a IHa]; simpl.
  - split; [discriminate|tauto].
  - tauto.
  - split; [discriminate|]. intros (c & H & _). discriminate.
  - rewrite andb_true_iff, IHa, IHb. split.
    + intros [Ha Hb]. now exists [], [].
    + intros (s1 & s2 & E & Ha & Hb). symmetry in E.
      apply app_eq_nil in E as [-> ->]. tauto.
  - rewrite orb_true_iff, IHa, IHb. tauto.
  - rewrite andb_true_iff, IHa, IHb. tauto.
  - split; [constructor|trivial].
Qed.

(** The first piece of a starred string that is not empty. *)
Lemma star_cons (L : list ascii -> Prop) c s :
  star L (c :: s) ->
  exists s1 s2, s = s1 ++ s2 /\ L (c :: s1) /\ star L s2.
Proof.
  intros H. remember (c :: s) as t eqn:E. revert c s E.
  induction H as [|s1 s2 H1 H2 IH]; intros c s E; [discriminate|].
  destruct s1 as [|c1 s1]; simpl in E.
  - now apply IH.
  - injection E as -> <-. now exists s1, s2.
Qed.

Lemma deriv_lang c r s : lang (deriv c r) s <-> lang r (c :: s).
Proof.
  revert s.
  induction r as [| |p|a IHa b IHb|a IHa b IHb|a IHa b IHb|a IHa];
    intros s; simpl.
  - tauto.
  - split; [tauto|discriminate].
  - destruct (p c) eqn:P; simpl.
    + split.
      * intros ->. now exists c.
      * now intros (c' & [= <- <-] & _).
    + split; [tauto|]. intros (c' & [= <- _] & P'). congruence.
  - assert (Hcons : (exists s1 s2, s = s1 ++ s2
                                   /\ lang (deriv c a) s1 /\ lang b s2)
                    <-> (exists s1 s2, c :: s = (c :: s1) ++ s2
                                       /\ lang a (c :: s1) /\ lang b s2)).
    { split; intros (s1 & s2 & E & Ha & Hb); exists s1, s2.
      - subst s. repeat split; trivial. now apply IHa.
      - injection E as ->. repeat split; trivial. now apply IHa. }
    destruct (nullable a) eqn:N; simpl.
    + rewrite Hcons, IHb. split.
      * intros [(s1 & s2 & E & Ha & Hb)|Hb].
        -- now exists (c :: s1), s2.
        -- exists [], (c :: s). repeat split; trivial.
           now apply nullable_lang.
      * intros (s1 & s2 & E & Ha & Hb). destruct s1 as [|c1 s1]; simpl in E.
        -- right. now subst s2.
        -- left. injection E as <- ->. now exists s1, s2.
    + rewrite Hcons. split.
      * intros (s1 & s2 & E & Ha & Hb). now exists (c :: s1), s2.
      * intros (s1 & s2 & E & Ha & Hb). destruct s1 as [|c1 s1]; simpl in E.
        -- apply nullable_lang in Ha. congruence.
        -- injection E as <- ->. now exists s1, s2.
  - rewrite IHa, IHb. tauto.
  - rewrite IHa, IHb. tauto.
  - split.
    + intros (s1 & s2 & -> & Ha & Hs). apply IHa in Ha.
      now apply (star_app _ (c :: s1) s2).
    + intros H. apply star_cons in H as (s1 & s2 & -> & Ha & Hs).
      exists s1, s2. repeat split; trivial. now apply IHa.
Qed.

Theorem matches_lang r s : matches r s = true <-> lang r s.
Proof.
  revert r. induction s as [|c s IH]; intros r; simpl.
  - apply nullable_lang.
  - rewrite IH. apply deriv_lang.
Qed.

(** ** Repeated character classes *)

Lemma star_class p s : lang (Star (Class p)) s <-> all p s.
Proof.
  simpl. split.
  - induction 1 as [|s1 s2 (c & -> & P) _ IH]; constructor; trivial.
  - induction 1 as [|c s P _ IH]; [constructor|].
    apply (star_app _ [c] s); trivial. now exists c.
Qed.

Lemma at_least_class n p s :
  lang (at_least n (Class p)) s <-> n <= List.length s /\ all p s.
Proof.
  revert s. induction n as [|n IH]; intros s.
  - rewrite star_class. simpl. split; [split; [lia|trivial]|tauto].
  - change (lang (at_least (S n) (Class p)) s)
      with (exists s1 s2, s = s1 ++ s2 /\ lang (Class p) s1
                          /\ lang (at_least n (Class p)) s2).
    split.
    + intros (s1 & s2 & -> & (c & -> & P) & H). apply IH in H as [Hn Ha].
      simpl. split; [lia|now constructor].
    + intros [Hn Ha]. destruct s as [|c s]; [simpl in Hn; lia|].
      inversion Ha as [|? ? P Ha']; subst.
      exists [c], s. repeat split.
      * now exists c.
      * apply IH. simpl in Hn. split; [lia|trivial].
Qed.

Lemma plus_class p s :
  lang (plus (Class p)) s <-> s <> [] /\ all p s.
Proof.
  change (plus (Class p)) with (at_least 1 (Class p)).
  rewrite at_least_class. destruct s; simpl; split; intros [H1 H2];
    split; trivial; try lia; try congruence.
Qed.

(** A lookahead [(?=.*[p])]: a character of [p] with no line terminator
    before it. *)
Lemma lookahead_class p s :
  lang (lookahead (Seq (Star dot) (Class p))) s <->
  exists before c after,
    s = before ++ c :: after
    /\ all (fun x => negb (char "010" x || char "013" x)) before
    /\ p c = true.
Proof.
  unfold lookahead.
  change (lang (Seq (Seq (Star dot) (Class p)) (Star any)) s)
    with (exists s1 s2, s = s1 ++ s2
                        /\ (exists t1 t2, s1 = t1 ++ t2
                                          /\ lang (Star dot) t1
                                          /\ lang (Class p) t2)
                        /\ lang (Star any) s2).
  split.
  - intros (s1 & s2 & -> & (t1 & t2 & -> & Hd & c & -> & P) & _).
    exists t1, c, s2. rewrite <- app_assoc. repeat split; trivial.
    now apply star_class in Hd.
  - intros (before & c & after & -> & Hd & P).
    exists (before ++ [c]), after. rewrite <- app_assoc. repeat split.
    + exists before, [c]. repeat split.
      * now apply star_class.
      * now exists c.
    + apply star_class. unfold all. apply Forall_forall. reflexivity.
Qed.

End RegExpFacts.

(** ** The password and the e-mail address *)

Lemma password_char_not_terminator c :
  password_char c = true ->
  negb (RegExp.char "010" c || RegExp.char "013" c) = true.
Proof.
  destruct c as [[] [] [] [] [] [] [] []]; vm_compute; congruence.
Qed.

Lemma digit_is_special c : RegExp.digit c = true -> special c = true.
Proof.
  destruct c as [[] [] [] [] [] [] [] []]; vm_compute; congruence.
Qed.

(** A character of the class [p] in a string of password characters, split
    the way a lookahead finds it. *)
Lemma found_in_password (p : ascii -> bool) s :
  RegExp.all password_char s ->
  Exists (fun c => p c = true) s ->
  exists before c after,
    s = before ++ c :: after
    /\ RegExp.all (fun x => negb (RegExp.char "010" x || RegExp.char "013" x))
                  before
    /\ p c = true.
Proof.
  intros Hall Hex. apply Exists_exists in Hex as (c & Hin & P).
  apply in_split in Hin as (before & after & ->).
  exists before, c, after. repeat split; trivial.
  apply Forall_app in Hall as [Hb _].
  unfold RegExp.all in *. rewrite Forall_forall in *.
  intros x Hx. apply password_char_not_terminator. now apply Hb.
Qed.

(** X9: The password test of [handleSignup] accepts exactly the strings of 12 or
    more characters of [A-Za-z0-9$%^] and of the range from [*] to [_] that
    hold a letter and a digit.  The third lookahead asks for nothing more: the
    range [*-_] of its class holds the digits, so no special character is
    required. *)
Theorem password_test_letter_and_digit (v : value) :
  RegExp.test password_format v = true <->
  let s := list_ascii_of_string (String_of v) in
  12 <= List.length s
  /\ RegExp.all password_char s
  /\ Exists (fun c => RegExp.letter c = true) s
  /\ Exists (fun c => RegExp.digit c = true) s.
Proof.
  unfold RegExp.test. cbv zeta.
  set (s := list_ascii_of_string (String_of v)).
  rewrite RegExpFacts.matches_lang. unfold password_format.
  cbn [RegExp.lang].
  rewrite !RegExpFacts.lookahead_class, RegExpFacts.at_least_class.
  split.
  - intros ((b1 & c1 & a1 & E1 & _ & P1) & (b2 & c2 & a2 & E2 & _ & P2)
            & _ & Hlen & Hall).
    repeat split; trivial.
    + apply Exists_exists. exists c1. split.
      * rewrite E1. apply in_elt.
      * unfold RegExp.letter. now rewrite orb_comm.
    + apply Exists_exists. exists c2. split; trivial.
      rewrite E2. apply in_elt.
  - intros (Hlen & Hall & Hl & Hd). repeat split; trivial.
    + apply found_in_password; trivial.
      apply Exists_exists in Hl as (c & Hin & P). apply Exists_exists.
      exists c. split; trivial. unfold RegExp.letter in P.
      now rewrite orb_comm.
    + now apply found_in_password.
    + apply found_in_password; trivial.
      apply Exists_exists in Hd as (c & Hin & P). apply Exists_exists.
      exists c. split; trivial. now apply digit_is_special.
Qed.

(** Twelve lower-case letters and digits are a valid password; an exclamation
    mark makes a password invalid. *)
Example password_examples :
  RegExp.test password_format (Str "password1234") = true
  /\ RegExp.test password_format (Str "Passw0rd!Passw0rd!") = false
  /\ RegExp.test password_format (Str "abcdefghijklmnop") = false.
Proof. repeat split; vm_compute; reflexivity. Qed.

(** X10: The e-mail test of [handleSignup] accepts exactly the strings
    local@domain.tld with a non-empty local part of [\w.%+-], a non-empty
    domain of [\w.-] and a last label of two or more letters. *)
Theorem email_test_shape (v : value) :
  RegExp.test email_format v = true <->
  exists local domain tld,
    list_ascii_of_string (String_of v)
    = local ++ "@"%char :: domain ++ "."%char :: tld
    /\ local <> []
    /\ RegExp.all (fun c => RegExp.word c || RegExp.char "." c
                            || RegExp.char "%" c || RegExp.char "+" c
                            || RegExp.char "-" c) local
    /\ domain <> []
    /\ RegExp.all (fun c => RegExp.word c || RegExp.char "." c
                            || RegExp.char "-" c) domain
    /\ 2 <= List.length tld
    /\ RegExp.all RegExp.letter tld.
Proof.
  unfold RegExp.test.
  set (s := list_ascii_of_string (String_of v)).
  rewrite RegExpFacts.matches_lang. unfold email_format.
  cbn [RegExp.lang].
  split.
  - intros (local & s1 & -> & Hl & at_ & s2 & -> & (c & -> & Hat)
            & domain & s3 & -> & Hd & dot_ & tld & -> & (d & -> & Hdot)
            & Ht).
    apply RegExpFacts.plus_class in Hl as [Hl1 Hl2].
    apply RegExpFacts.plus_class in Hd as [Hd1 Hd2].
    apply RegExpFacts.at_least_class in Ht as [Ht1 Ht2].
    apply Ascii.eqb_eq in Hat as <-. apply Ascii.eqb_eq in Hdot as <-.
    exists local, domain, tld. repeat split; trivial.
  - intros (local & domain & tld & E & Hl1 & Hl2 & Hd1 & Hd2 & Ht1 & Ht2).
    exists local, ("@"%char :: domain ++ "."%char :: tld). split; trivial.
    split; [now apply RegExpFacts.plus_class|].
    exists ["@"%char], (domain ++ "."%char :: tld). split; trivial.
    split; [now exists "@"%char|].
    exists domain, ("."%char :: tld). split; trivial.
    split; [now apply RegExpFacts.plus_class|].
    exists ["."%char], tld. split; trivial.
    split; [now exists "."%char|].
    now apply RegExpFacts.at_least_class.
Qed.

Example email_examples :
  RegExp.test email_format (Str "ann.lee@example.org") = true
  /\ RegExp.test email_format (Str "ann@example") = false
  /\ RegExp.test email_format (Str "ann lee@example.org") = false
  /\ RegExp.test email_format (Str "a@b@example.org") = false.
Proof. repeat split; vm_compute; reflexivity. Qed.

(** * Sign-up and sign-in *)

(** X11: A sign-up that lacks a field, or whose e-mail address or password fails
    its test, is answered 400 with an error text, and nothing has been sent
    to the identity provider: the state is the one before. *)
Theorem signup_invalid_input svc event s fields :
  ApiEvent.body event = inr fields ->
  truthy (field "firstName" fields) = false
  \/ truthy (field "lastName" fields) = false
  \/ truthy (field "email" fields) = false
  \/ truthy (field "password" fields) = false
  \/ RegExp.test email_format (field "email" fields) = false
  \/ RegExp.test password_format (field "password" fields) = false ->
  exists text,
    handleSignup svc event s = (Ok (respond 400 (says "error" text)), s).
Proof.
  intros Hb Hbad.
  unfold handleSignup, catching, and_then, parse. rewrite Hb. simpl.
  destruct (truthy (field "firstName" fields)); simpl;
    [|now eexists].
  destruct (truthy (field "lastName" fields)); simpl; [|now eexists].
  destruct (truthy (field "email" fields)); simpl; [|now eexists].
  destruct (truthy (field "password" fields)); simpl; [|now eexists].
  destruct (RegExp.test email_format _); simpl; [|now eexists].
  destruct (RegExp.test password_format _); simpl; [|now eexists].
  destruct Hbad as [H|[H|[H|[H|[H|H]]]]]; discriminate.
Qed.

(** A password with an exclamation mark: refused before any call. *)
Lemma signup_invalid_input_exclamation :
  let fields := [ ("firstName", Str "Ann"); ("lastName", Str "Lee");
                  ("email", Str "ann.lee@example.org");
                  ("password", Str "Passw0rd!Passw0rd!") ] in
  exists text,
    handleSignup Cases.services (Cases.request "POST" "/signup" fields)
                 (Cases.cloud Scenario.empty_world)
    = (Ok (respond 400 (says "error" text)),
       Cases.cloud Scenario.empty_world).
Proof.
  intros fields.
  apply (signup_invalid_input Cases.services
           (Cases.request "POST" "/signup" fields)
           (Cases.cloud Scenario.empty_world) fields eq_refl).
  do 5 right. vm_compute. reflexivity.
Defined.

(** X12: A sign-up that passes the tests is answered 200 exactly when the identity
    provider accepts both the creation of the user and the setting of the
    password; otherwise the answer is 400 or 502.  When the creation is
    refused the password is never sent; when the password is refused the user
    has been created all the same. *)
Theorem signup_valid_input svc event s fields :
  ApiEvent.body event = inr fields ->
  truthy (field "firstName" fields) = true ->
  truthy (field "lastName" fields) = true ->
  truthy (field "email" fields) = true ->
  truthy (field "password" fields) = true ->
  RegExp.test email_format (field "email" fields) = true ->
  RegExp.test password_format (field "password" fields) = true ->
  let create := AdminCreateUser (field "email" fields)
                                (field "firstName" fields)
                                (field "lastName" fields)
                                (field "password" fields) in
  let set_password := AdminSetUserPassword (field "email" fields)
                                           (field "password" fields) in
  exists response s',
    handleSignup svc event s = (Ok response, s')
    /\ world s' = world s
    /\ (Reply.statusCode response = 200%Z
        <-> cognito svc create = None /\ cognito svc set_password = None)
    /\ (Reply.statusCode response = 200%Z
        \/ Reply.statusCode response = 400%Z
        \/ Reply.statusCode response = 502%Z)
    /\ (cognito svc create <> None -> sent s' = sent s ++ [ToCognito create])
    /\ (cognito svc create = None ->
        sent s' = sent s ++ [ToCognito create; ToCognito set_password]).
Proof.
  intros Hb H1 H2 H3 H4 H5 H6. cbv zeta.
  unfold handleSignup, catching, and_then, parse, identity.
  rewrite Hb. simpl. rewrite H1, H2, H3, H4, H5, H6. simpl.
  assert (Hmap : forall e,
             Reply.statusCode
               match code e with
               | Str "UsernameExistsException" =>
                   respond 400 (says "error" "Email already exists.")
               | _ => respond 502 (says "error" "Signup failed.")
               end = 400%Z
             \/ Reply.statusCode
                  match code e with
                  | Str "UsernameExistsException" =>
                      respond 400 (says "error" "Email already exists.")
                  | _ => respond 502 (says "error" "Signup failed.")
                  end = 502%Z).
  { intros e. destruct (code e) as [| | | |x]; auto.
    repeat (destruct x as [|[[] [] [] [] [] [] [] []] x]; auto). }
  destruct (cognito svc (AdminCreateUser _ _ _ _)) as [e|] eqn:C; simpl.
  - eexists _, _. split; [reflexivity|]. simpl.
    split; [reflexivity|]. split; [|split; [|split]].
    + split.
      * intros H. destruct (Hmap e) as [M|M]; rewrite M in H; discriminate.
      * intros [? _]; discriminate.
    + destruct (Hmap e); auto.
    + reflexivity.
    + discriminate.
  - destruct (cognito svc (AdminSetUserPassword _ _)) as [e|] eqn:P; simpl.
    + eexists _, _. split; [reflexivity|]. simpl.
      split; [reflexivity|]. split; [|split; [|split]].
      * split.
        -- intros H. destruct (Hmap e) as [M|M]; rewrite M in H;
             discriminate.
        -- intros [_ ?]; discriminate.
      * destruct (Hmap e); auto.
      * congruence.
      * intros _. now rewrite <- app_assoc.
    + eexists _, _. split; [reflexivity|]. simpl.
      split; [reflexivity|]. split; [|split; [|split]].
      * tauto.
      * auto.
      * congruence.
      * intros _. now rewrite <- app_assoc.
Qed.

Lemma signup_valid_input_accepted :
  exists response s',
    handleSignup Cases.services (Cases.request "POST" "/signup" Cases.signup)
                 (Cases.cloud Scenario.empty_world)
    = (Ok response, s')
    /\ Reply.statusCode response = 200%Z.
Proof.
  destruct (signup_valid_input Cases.services
              (Cases.request "POST" "/signup" Cases.signup)
              (Cases.cloud Scenario.empty_world) Cases.signup
              eq_refl eq_refl eq_refl eq_refl eq_refl eq_refl eq_refl)
    as (response & s' & H & _ & H200 & _).
  exists response, s'. split; [exact H|].
  apply H200. split; reflexivity.
Defined.

(** X13: Sign-in answers 200 or 400 and nothing else.  It answers 200 exactly when
    the body could be parsed, the identity provider accepted the credentials
    and its answer held an AuthenticationResult, whose IdToken is then the
    body of the response. *)
Theorem signin_answers svc event s :
  exists response s',
    handleSignin svc event s = (Ok response, s')
    /\ world s' = world s
    /\ (Reply.statusCode response = 200%Z
        \/ Reply.statusCode response = 400%Z)
    /\ (Reply.statusCode response = 200%Z <->
        exists fields token,
          ApiEvent.body event = inr fields
          /\ cognito svc (AdminInitiateAuth (field "email" fields)
                                            (field "password" fields)) = None
          /\ idToken svc (field "email" fields) (field "password" fields)
             = Some token
          /\ Reply.body response = Object [("idToken", Value token)]).
Proof.
  unfold handleSignin, catching, and_then, parse, identity.
  assert (Hmap : forall e,
             Reply.statusCode
               match code e with
               | Str "NotAuthorizedException" =>
                   respond 400 (says "error" "Invalid email or password.")
               | _ => respond 400 (says "error" "Authentication failed.")
               end = 400%Z).
  { intros e. destruct (code e) as [| | | |x]; auto.
    repeat (destruct x as [|[[] [] [] [] [] [] [] []] x]; auto). }
  destruct (ApiEvent.body event) as [e|fields] eqn:Hb; simpl.
  - eexists _, _. split; [reflexivity|]. rewrite Hmap.
    split; [reflexivity|]. split; [auto|]. split; [discriminate|].
    intros (f & t & Hf & _). discriminate.
  - destruct (cognito svc (AdminInitiateAuth _ _)) as [e|] eqn:C; simpl.
    + eexists _, _. split; [reflexivity|]. rewrite Hmap.
      split; [reflexivity|]. split; [auto|]. split; [discriminate|].
      intros (f & t & [= <-] & C' & _). congruence.
    + destruct (idToken svc _ _) as [token|] eqn:T; simpl.
      * eexists _, _. split; [reflexivity|]. simpl.
        split; [reflexivity|]. split; [auto|]. split; [|reflexivity].
        intros _. now exists fields, token.
      * eexists _, _. split; [reflexivity|]. simpl.
        split; [reflexivity|]. split; [auto|]. split; [discriminate|].
        intros (f & t & [= <-] & _ & T' & _). congruence.
Qed.

(** * Tables *)

Lemma get_put {Item} (key : Item -> string) (it : Item) (tbl : list Item) :
  get key (key it) (put key it tbl) = Some it.
Proof.
  unfold get. induction tbl as [|x tbl IH]; simpl.
  - now rewrite String.eqb_refl.
  - destruct (String.eqb (key x) (key it)) eqn:E; simpl.
    + now rewrite String.eqb_refl.
    + now rewrite E.
Qed.

Lemma get_some_iff {Item} (key : Item -> string) (k : string)
      (tbl : list Item) :
  (exists x, get key k tbl = Some x) <-> exists x, In x tbl /\ key x = k.
Proof.
  unfold get. split.
  - intros (x & H). apply find_some in H as [Hin Hk].
    exists x. split; trivial. now apply String.eqb_eq.
  - intros (x & Hin & Hk).
    destruct (find _ tbl) as [y|] eqn:F; [now exists y|].
    apply (find_none _ _ F) in Hin. apply String.eqb_neq in Hin. contradiction.
Qed.

Lemma put_length {Item} (key : Item -> string) (it : Item) (tbl : list Item) :
  List.length (put key it tbl)
  = if existsb (fun x => String.eqb (key x) (key it)) tbl
    then List.length tbl else S (List.length tbl).
Proof.
  induction tbl as [|x tbl IH]; simpl; trivial.
  destruct (String.eqb (key x) (key it)); simpl; trivial.
  rewrite IH. now destruct (existsb _ tbl).
Qed.

Lemma put_keeps_others {Item} (key : Item -> string) (it x : Item)
      (tbl : list Item) :
  In x tbl -> key x <> key it -> In x (put key it tbl).
Proof.
  induction tbl as [|y tbl IH]; simpl; [tauto|].
  intros [->|Hin] Hk.
  - apply String.eqb_neq in Hk. rewrite Hk. now left.
  - destruct (String.eqb (key y) (key it)); simpl; auto.
Qed.

(** The table [handleCreateTable] stores for the fields of a body. *)
Lemma create_table_run svc event s fields :
  truthy (username_of event) = true ->
  ApiEvent.body event = inr fields ->
  typeof (field "number" fields) = "number" ->
  typeof (field "places" fields) = "number" ->
  typeof (field "isVip" fields) = "boolean" ->
  let tableId := or_else (field "id" fields) (Str (uuidv4 (runtime svc))) in
  let tableData :=
    {| TableItem.id := String_of tableId;
       TableItem.number := field "number" fields;
       TableItem.places := field "places" fields;
       TableItem.isVip := field "isVip" fields;
       TableItem.minOrder := nullish (field "minOrder" fields) (Num 0) |} in
  handleCreateTable svc event s =
  match dynamodb svc (PutTable tableData) with
  | None =>
      (Ok (respond 200 (Object [("id", Value tableId)])),
       with_tables (put TableItem.id tableData (tables_of s))
                   (note (ToStore (PutTable tableData)) s))
  | Some e => (Raise e, note (ToStore (PutTable tableData)) s)
  end.
Proof.
  intros Hu Hb Hn Hp Hv. cbv zeta.
  unfold handleCreateTable, and_then, parse, store.
  rewrite Hu, Hb. simpl. rewrite Hn, Hp, Hv. simpl.
  destruct (dynamodb svc (PutTable _)); reflexivity.
Qed.

(** X14: A table whose number or capacity is not a number, or whose VIP flag is
    not a boolean, is refused with 400 before anything is sent to the store:
    the state is the one before. *)
Theorem create_table_invalid svc event s fields :
  truthy (username_of event) = true ->
  ApiEvent.body event = inr fields ->
  typeof (field "number" fields) <> "number"
  \/ typeof (field "places" fields) <> "number"
  \/ typeof (field "isVip" fields) <> "boolean" ->
  handleCreateTable svc event s =
  (Ok (respond 400
         (says "message" "Table number, capacity, and location are required")),
   s).
Proof.
  intros Hu Hb Hbad.
  unfold handleCreateTable, and_then, parse. rewrite Hu, Hb. simpl.
  destruct (String.eqb_spec (typeof (field "number" fields)) "number");
    simpl; trivial.
  destruct (String.eqb_spec (typeof (field "places" fields)) "number");
    simpl; trivial.
  destruct (String.eqb_spec (typeof (field "isVip" fields)) "boolean");
    simpl; trivial.
  tauto.
Qed.

(** The table number sent as the string "9". *)
Lemma create_table_invalid_string_number :
  let fields := [ ("number", Str "9"); ("places", Num 6);
                  ("isVip", Bool true) ] in
  handleCreateTable Cases.services (Cases.request "POST" "/tables" fields)
                    (Cases.cloud Scenario.empty_world)
  = (Ok (respond 400
           (says "message"
                 "Table number, capacity, and location are required")),
     Cases.cloud Scenario.empty_world).
Proof.
  intros fields.
  apply (create_table_invalid Cases.services _ _ fields); try reflexivity.
  left. discriminate.
Defined.

(** X15: A table that has been created is found again under its identifier: the
    identifier sent with it, or the one drawn when none (or a falsy one) was
    sent.  What [GET /tables/{tableId}] then shows is the number, capacity and
    VIP flag that were sent, and the minimum order, shown as 0 when it is
    absent or falsy. *)
Theorem create_table_then_get svc svc' event event' s fields :
  truthy (username_of event) = true ->
  ApiEvent.body event = inr fields ->
  typeof (field "number" fields) = "number" ->
  typeof (field "places" fields) = "number" ->
  typeof (field "isVip" fields) = "boolean" ->
  let tableId := or_else (field "id" fields) (Str (uuidv4 (runtime svc))) in
  (forall item, dynamodb svc (PutTable item) = None) ->
  truthy (username_of event') = true ->
  ApiEvent.pathParameters event' = inr (String_of tableId) ->
  dynamodb svc' (GetTable (String_of tableId)) = None ->
  exists s1 s2,
    handleCreateTable svc event s
    = (Ok (respond 200 (Object [("id", Value tableId)])), s1)
    /\ handleGetTableById svc' event' s1
       = (Ok (respond 200
                (Object
                   [ ("id", NumberOf (String_of tableId));
                     ("number", Value (field "number" fields));
                     ("places", Value (field "places" fields));
                     ("isVip", Value (field "isVip" fields));
                     ("minOrder",
                      Value (or_else (field "minOrder" fields) (Num 0))) ])),
          s2)
    /\ world s2 = world s1.
Proof.
  intros Hu Hb Hn Hp Hv tableId Hput Hu' Hk Hget.
  rewrite (create_table_run svc event s fields Hu Hb Hn Hp Hv).
  fold tableId. rewrite Hput.
  eexists _, _. split; [reflexivity|].
  unfold handleGetTableById, catching, and_then, store.
  rewrite Hu', Hk. simpl. rewrite Hget. simpl.
  unfold tables_of at 1. simpl.
  rewrite (get_put TableItem.id
             {| TableItem.id := String_of tableId;
                TableItem.number := field "number" fields;
                TableItem.places := field "places" fields;
                TableItem.isVip := field "isVip" fields;
                TableItem.minOrder := nullish (field "minOrder" fields)
                                              (Num 0) |}).
  simpl. split.
  - unfold table_view. simpl.
    replace (or_else (nullish (field "minOrder" fields) (Num 0)) (Num 0))
      with (or_else (field "minOrder" fields) (Num 0)); [reflexivity|].
    destruct (field "minOrder" fields) as [| |[]|n|m]; simpl; trivial.
  - reflexivity.
Qed.

(** The table of [Cases.new_table]: its minimum order is the empty string,
    stored as it is and shown as 0. *)
Lemma create_table_then_get_empty_minimum :
  exists s1 s2,
    handleCreateTable Cases.services
      (Cases.request "POST" "/tables" Cases.new_table)
      (Cases.cloud Scenario.empty_world)
    = (Ok (respond 200 (Object [("id", Value (Str "t-9"))])), s1)
    /\ handleGetTableById Cases.services
         (Cases.request "GET" "/tables/{tableId}" []) s1
       = (Ok (respond 200
                (Object [ ("id", NumberOf "t-9"); ("number", Value (Num 9));
                          ("places", Value (Num 6));
                          ("isVip", Value (Bool true));
                          ("minOrder", Value (Num 0)) ])), s2)
    /\ world s2 = world s1.
Proof.
  apply (create_table_then_get Cases.services Cases.services
           (Cases.request "POST" "/tables" Cases.new_table)
           (Cases.request "GET" "/tables/{tableId}" [])
           (Cases.cloud Scenario.empty_world) Cases.new_table);
    reflexivity.
Defined.

(** X16: [GET /tables/{tableId}], when the store answers: 200 exactly when a table
    is stored under that identifier, 404 "Table not found" otherwise; the
    tables and reservations are not touched. *)
Theorem get_table_by_id_answers svc event s tableId :
  truthy (username_of event) = true ->
  ApiEvent.pathParameters event = inr tableId ->
  dynamodb svc (GetTable tableId) = None ->
  exists response s',
    handleGetTableById svc event s = (Ok response, s')
    /\ world s' = world s
    /\ (Reply.statusCode response = 200%Z
        <-> exists table, In table (tables_of s)
                          /\ TableItem.id table = tableId)
    /\ ((forall table, In table (tables_of s) ->
                       TableItem.id table <> tableId) ->
        response = respond 404 (says "message" "Table not found")).
Proof.
  intros Hu Hk Hget.
  unfold handleGetTableById, catching, and_then, store.
  rewrite Hu, Hk. simpl. rewrite Hget. simpl.
  change (tables_of (note (ToStore (GetTable tableId)) s))
    with (tables_of s).
  pose proof (get_some_iff TableItem.id tableId (tables_of s)) as G.
  destruct (get TableItem.id tableId (tables_of s)) as [table|]; simpl.
  - eexists _, _. split; [reflexivity|]. split; [reflexivity|]. split.
    + split; [intros _|reflexivity]. apply G. now exists table.
    + intros Hno. destruct (proj1 G) as (x & Hin & Hx); [now exists table|].
      now apply Hno in Hin.
  - eexists _, _. split; [reflexivity|]. split; [reflexivity|]. split.
    + split; [discriminate|]. intros H. apply G in H as [x H]. discriminate.
    + reflexivity.
Qed.

Lemma get_table_by_id_answers_missing :
  exists response s',
    handleGetTableById Cases.services (Cases.request "GET" "/tables/{tableId}" [])
                       (Cases.cloud Scenario.empty_world)
    = (Ok response, s')
    /\ response = respond 404 (says "message" "Table not found").
Proof.
  destruct (get_table_by_id_answers Cases.services
              (Cases.request "GET" "/tables/{tableId}" [])
              (Cases.cloud Scenario.empty_world) "t-9"
              eq_refl eq_refl eq_refl)
    as (response & s' & H & _ & _ & H404).
  exists response, s'. split; [exact H|].
  apply H404. intros table [<-|[]]. discriminate.
Defined.

(** X17: Creating a table under an identifier that is already stored replaces that
    table: the number of tables is unchanged, where it grows by one for a new
    identifier; every table stored under another identifier is kept, and the
    reservations are not touched. *)
Theorem create_table_replaces svc event s fields :
  truthy (username_of event) = true ->
  ApiEvent.body event = inr fields ->
  typeof (field "number" fields) = "number" ->
  typeof (field "places" fields) = "number" ->
  typeof (field "isVip" fields) = "boolean" ->
  (forall item, dynamodb svc (PutTable item) = None) ->
  let key := String_of (or_else (field "id" fields)
                                (Str (uuidv4 (runtime svc)))) in
  let s' := snd (handleCreateTable svc event s) in
  List.length (tables_of s')
  = (if existsb (fun t => String.eqb (TableItem.id t) key) (tables_of s)
     then List.length (tables_of s) else S (List.length (tables_of s)))
  /\ (forall t, In t (tables_of s) -> TableItem.id t <> key ->
                In t (tables_of s'))
  /\ reservations_of s' = reservations_of s.
Proof.
  intros Hu Hb Hn Hp Hv Hput. cbv zeta.
  rewrite (create_table_run svc event s fields Hu Hb Hn Hp Hv), Hput.
  set (item := {| TableItem.id := _ |}).
  unfold tables_of, reservations_of. simpl.
  split; [apply (put_length TableItem.id item)|].
  split; [|reflexivity].
  intros t Hin Hk. now apply (put_keeps_others TableItem.id item).
Qed.

(** Table t-5 sent again with another capacity: still one table. *)
Lemma create_table_replaces_t5 :
  let fields := [ ("id", Str "t-5"); ("number", Num 5); ("places", Num 8);
                  ("isVip", Bool false) ] in
  let s' := snd (handleCreateTable Cases.services
                   (Cases.request "POST" "/tables" fields)
                   (Cases.cloud Scenario.booked_world)) in
  List.length (tables_of s') = 1
  /\ reservations_of s' = [Scenario.first_booking].
Proof.
  intros fields.
  destruct (create_table_replaces Cases.services
              (Cases.request "POST" "/tables" fields)
              (Cases.cloud Scenario.booked_world) fields
              eq_refl eq_refl eq_refl eq_refl eq_refl (fun _ => eq_refl))
    as (Hlen & _ & Hres).
  split; [exact Hlen|exact Hres].
Defined.


(** X18: A table that has been created can be booked: when the tables table,
    with the new table in it, is read whole by the table scan and the store
    answers that scan, a reservation request for the number of the new
    table, carrying its four fields, is not answered "Table not found". *)
Theorem created_table_resolves svc event s fields rt request w' b :
  truthy (username_of event) = true ->
  ApiEvent.body event = inr fields ->
  typeof (field "number" fields) = "number" ->
  typeof (field "places" fields) = "number" ->
  typeof (field "isVip" fields) = "boolean" ->
  (forall item, dynamodb svc (PutTable item) = None) ->
  w' = world (snd (handleCreateTable svc event s)) ->
  read_whole (TABLES_TABLE (db w')) ->
  truthy (getUsernameFromToken request) = true ->
  Event.body request = Some b ->
  Body.tableNumber b = field "number" fields ->
  truthy (Body.tableNumber b) = true ->
  truthy (Body.date b) = true ->
  truthy (Body.slotTimeStart b) = true ->
  truthy (Body.slotTimeEnd b) = true ->
  store_ok rt (ScanTables (Body.tableNumber b)) = true ->
  let response := fst (handleCreateReservation rt request w') in
  Response.body response <> [("message", Str "Table not found")]
  /\ exists table,
      hd_error (scan (tableParams (Body.tableNumber b))
                     (TABLES_TABLE (db w'))) = Some table
      /\ TableItem.number table = field "number" fields.
Proof.
  intros Hu Hb Hn Hp Hv Hput -> Hwhole Hu' Hb' Hnum Tn Td Ts Te Hok.
  rewrite (create_table_run svc event s fields Hu Hb Hn Hp Hv), Hput in *.
  simpl in *.
  set (item := {| TableItem.id := _ |}) in *.
  set (w' := {| db := _; calls := _ |}).
  assert (Hin : In item (scan (tableParams (Body.tableNumber b))
                              (TABLES_TABLE (db w')))).
  { apply filter_In. split.
    - assert (Hpage : page (TABLES_TABLE (db w'))
                      = put TableItem.id item (tables_of s)) by exact Hwhole.
      rewrite Hpage. apply put_In.
    - unfold tableParams, item. simpl. rewrite Hnum.
      apply attr_eq_truthy_refl. now rewrite <- Hnum. }
  destruct (scan (tableParams (Body.tableNumber b)) (TABLES_TABLE (db w')))
    as [|table rest] eqn:S; [contradiction|].
  assert (Ht : TableItem.number table = field "number" fields).
  { assert (H : In table (scan (tableParams (Body.tableNumber b))
                               (TABLES_TABLE (db w'))))
      by (rewrite S; now left).
    apply filter_In in H as [_ H]. apply attr_eq_eq in H. congruence. }
  change (TABLES_TABLE (db w'))
    with (put TableItem.id item (tables_of s)) in S.
  split; [|exists table; split; [now rewrite S|exact Ht]].
  unfold handleCreateReservation, try_catch, bind, scan_tables,
    scan_reservations.
  rewrite Hu', Hb'. simpl. rewrite Tn, Td, Ts, Te. simpl.
  rewrite Hok, S. simpl.
  destruct (store_ok rt (ScanReservations _ _ _ _)
            && attr_le (Body.slotTimeStart b) (Body.slotTimeEnd b));
    simpl; [|discriminate].
  destruct (Nat.ltb 0 _); simpl; [discriminate|].
  unfold put_reservation.
  destruct (store_ok rt (PutReservation _)); simpl; discriminate.
Qed.

Lemma created_table_resolves_table9 :
  let b := {| Body.tableNumber := Num 9;
              Body.clientName := Str "Ann";
              Body.phoneNumber := Str "555-0100";
              Body.date := Str "2024-06-01";
              Body.slotTimeStart := Str "18:00";
              Body.slotTimeEnd := Str "19:00" |} in
  let request := {| Event.claims := Some (Str "ann");
                    Event.body := Some b |} in
  let w' := world (snd (handleCreateTable Cases.services
                          (Cases.request "POST" "/tables" Cases.new_table)
                          (Cases.cloud Scenario.empty_world))) in
  Response.body (fst (handleCreateReservation Scenario.rt request w'))
  <> [("message", Str "Table not found")].
Proof.
  intros b request w'.
  apply (created_table_resolves Cases.services
           (Cases.request "POST" "/tables" Cases.new_table)
           (Cases.cloud Scenario.empty_world) Cases.new_table
           Scenario.rt request w' b);
    reflexivity.
Defined.

(** * Listing reservations *)

(** X19: A reservation that has been created is listed by [GET /reservations],
    unfiltered or filtered by the user name of its creator, with the table
    number, client, phone, date and times of the request, when the store
    answers and the reservations table is read whole by the scan. *)
Theorem created_reservation_is_listed rt request w b svc event s :
  Event.body request = Some b ->
  Response.statusCode (fst (handleCreateReservation rt request w)) = 200%Z ->
  world s = snd (handleCreateReservation rt request w) ->
  read_whole (reservations_of s) ->
  truthy (username_of event) = true ->
  ApiEvent.user event = Undefined
  \/ ApiEvent.user event = getUsernameFromToken request ->
  (forall c, dynamodb svc c = None) ->
  exists response listed s',
    handleGetReservations svc event s = (Ok response, s')
    /\ Reply.statusCode response = 200%Z
    /\ Reply.body response = Object [("reservations", Array listed)]
    /\ world s' = world s
    /\ In (Object [ ("tableNumber", Value (Body.tableNumber b));
                    ("clientName", Value (Body.clientName b));
                    ("phoneNumber", Value (Body.phoneNumber b));
                    ("date", Value (Body.date b));
                    ("slotTimeStart", Value (Body.slotTimeStart b));
                    ("slotTimeEnd", Value (Body.slotTimeEnd b)) ])
          listed.
Proof.
  intros Hb H200 Hw Hwhole Hu Huser Hok.
  apply created_inv in H200 as (b' & table & R & E & Hput).
  assert (b' = b) by (destruct R as (_ & Hb' & _); congruence). subst b'.
  rewrite (created_run _ _ _ _ _ R E Hput) in Hw. simpl in Hw.
  set (r := reservation_of rt (getUsernameFromToken request) table b) in *.
  assert (Hnum : Reservation.tableNumber r = Body.tableNumber b).
  { destruct R as (_ & _ & _ & _ & _ & _ & _ & Ht & _).
    apply hd_error_cons in Ht as [rest Ht].
    assert (Hin : In table (scan (tableParams (Body.tableNumber b))
                                 (TABLES_TABLE (db w))))
      by (rewrite Ht; now left).
    apply filter_In in Hin as [_ Hf]. now apply attr_eq_eq in Hf. }
  unfold handleGetReservations, and_then, store. rewrite Hu, Hok. simpl.
  eexists _, _, _. split; [reflexivity|]. simpl.
  split; [reflexivity|]. split; [reflexivity|]. split; [reflexivity|].
  apply in_map_iff. exists r. split.
  - unfold reservation_view. now rewrite Hnum.
  - apply filter_In. split.
    + change (reservations_of (note _ s)) with (reservations_of s).
      unfold read_whole in Hwhole. rewrite Hwhole.
      unfold reservations_of. rewrite Hw. simpl. apply put_In.
    + unfold reservations_filter.
      destruct Huser as [->| ->]; simpl; trivial.
      destruct (truthy (getUsernameFromToken request)) eqn:T; trivial.
      now apply attr_eq_truthy_refl.
Qed.

Lemma created_reservation_is_listed_scenario1 :
  exists response listed s',
    handleGetReservations Cases.services (Cases.request "GET" "/reservations" [])
                          (Cases.cloud Scenario.booked_world)
    = (Ok response, s')
    /\ Reply.statusCode response = 200%Z
    /\ Reply.body response = Object [("reservations", Array listed)]
    /\ world s' = Scenario.booked_world
    /\ In (Object [ ("tableNumber", Value (Num 5));
                    ("clientName", Value (Str "Ann"));
                    ("phoneNumber", Value (Str "555-0100"));
                    ("date", Value (Str "2024-06-01"));
                    ("slotTimeStart", Value (Str "18:00"));
                    ("slotTimeEnd", Value (Str "19:00")) ])
          listed.
Proof.
  apply (created_reservation_is_listed Scenario.rt
           (Scenario.event (Scenario.request (Str "18:00") (Str "19:00")))
           Scenario.empty_world
           (Scenario.request (Str "18:00") (Str "19:00"))
           Cases.services (Cases.request "GET" "/reservations" [])
           (Cases.cloud Scenario.booked_world));
    try reflexivity.
  now left.
Defined.



(** * What the handlers leave alone *)

(** X21: Sign-up, sign-in and the three GET handlers never change the tables or
    the reservations, whatever the event and whatever the services answer. *)
Theorem readers_leave_the_store svc event s :
  world (snd (handleSignup svc event s)) = world s
  /\ world (snd (handleSignin svc event s)) = world s
  /\ world (snd (handleGetTables svc event s)) = world s
  /\ world (snd (handleGetTableById svc event s)) = world s
  /\ world (snd (handleGetReservations svc event s)) = world s.
Proof.
  repeat split.
  - unfold handleSignup, catching, and_then, parse, identity.
    destruct (ApiEvent.body event); simpl; trivial.
    repeat match goal with
           | |- context [if ?c then _ else _] => destruct c; simpl; trivial
           | |- context [match cognito svc ?c with _ => _ end] =>
               destruct (cognito svc c); simpl; trivial
           end.
  - unfold handleSignin, catching, and_then, parse, identity.
    destruct (ApiEvent.body event); simpl; trivial.
    destruct (cognito svc _); simpl; trivial.
    destruct (idToken svc _ _); simpl; trivial.
  - unfold handleGetTables, catching, and_then, store.
    destruct (negb _); simpl; trivial.
    destruct (dynamodb svc _); simpl; trivial.
  - unfold handleGetTableById, catching, and_then, store.
    destruct (negb _); simpl; trivial.
    destruct (ApiEvent.pathParameters event); simpl; trivial.
    destruct (dynamodb svc _); simpl; trivial.
    destruct (get _ _ _); simpl; trivial.
  - unfold handleGetReservations, and_then, store.
    destruct (negb _); simpl; trivial.
    destruct (dynamodb svc _); simpl; trivial.
Qed.

(** * The dispatcher *)

Lemma route_none {A} (k : string) (table : list (string * A)) :
  ~ In k (map fst table) -> route k table = None.
Proof.
  induction table as [|[k' h] table IH]; simpl; trivial.
  intros H. destruct (String.eqb_spec k' k) as [->|_]; [tauto|].
  apply IH. tauto.
Qed.

(** X22: A method and resource that are not one of the seven routes, letter for
    letter, are answered 404 "Not Found", and nothing is run or changed. *)
Theorem unknown_route_not_found svc event s :
  ~ In (String_of (ApiEvent.httpMethod event) ++ " "
        ++ String_of (ApiEvent.resource event))%string
       [ "POST /signup"; "POST /signin"; "GET /tables"; "POST /tables";
         "GET /tables/{tableId}"; "GET /reservations";
         "POST /reservations" ] ->
  handler svc event s =
  ({| Reply.statusCode := 404;
      Reply.headers := corsHeaders;
      Reply.body := Object [("message", Value (Str "Not Found"))] |}, s).
Proof.
  intros H. unfold handler. now rewrite (route_none _ routes H).
Qed.

Lemma unknown_route_not_found_lower_case :
  handler Cases.services (Cases.request "post" "/signup" Cases.signup)
          (Cases.cloud Scenario.empty_world)
  = ({| Reply.statusCode := 404;
        Reply.headers := corsHeaders;
        Reply.body := Object [("message", Value (Str "Not Found"))] |},
     Cases.cloud Scenario.empty_world).
Proof.
  apply (unknown_route_not_found Cases.services).
  simpl. intros H.
  repeat (destruct H as [H|H]; [discriminate H|]). exact H.
Defined.

(** X23: The five routes on tables and reservations answer 401 "Unauthorized" to
    an event without a truthy user name in its claims; nothing is read,
    written or sent. *)
Theorem protected_routes_unauthorized svc event s method resource :
  ApiEvent.httpMethod event = Str method ->
  ApiEvent.resource event = Str resource ->
  In (method, resource)
     [ ("GET", "/tables"); ("POST", "/tables"); ("GET", "/tables/{tableId}");
       ("GET", "/reservations"); ("POST", "/reservations") ] ->
  truthy (username_of event) = false ->
  handler svc event s =
  (respond 401 (Object [("message", Value (Str "Unauthorized"))]), s).
Proof.
  intros Hm Hr Hin Hu. unfold handler. rewrite Hm, Hr.
  simpl in Hin.
  destruct Hin as [[= <- <-]|[[= <- <-]|[[= <- <-]|[[= <- <-]|[[= <- <-]|[]]]]]];
    simpl.
  - unfold handleGetTables. now rewrite Hu.
  - unfold handleCreateTable. now rewrite Hu.
  - unfold handleGetTableById. now rewrite Hu.
  - unfold handleGetReservations. now rewrite Hu.
  - unfold createReservation.
    unfold handleCreateReservation, try_catch.
    change (getUsernameFromToken (reservation_event event))
      with (username_of event).
    rewrite Hu. simpl. now destruct s.
Qed.

Lemma protected_routes_unauthorized_no_claims :
  let event :=
    {| ApiEvent.resource := Str "/reservations";
       ApiEvent.httpMethod := Str "POST";
       ApiEvent.claims := None;
       ApiEvent.body := inr [("tableNumber", Num 5)];
       ApiEvent.pathParameters := inr EmptyString;
       ApiEvent.user := Undefined |} in
  handler Cases.services event (Cases.cloud Scenario.booked_world)
  = (respond 401 (Object [("message", Value (Str "Unauthorized"))]),
     Cases.cloud Scenario.booked_world).
Proof.
  intros event.
  apply (protected_routes_unauthorized Cases.services event _
           "POST" "/reservations");
    try reflexivity.
  simpl. tauto.
Defined.

(** X24: [POST /tables] has no [catch] of its own: a body that cannot be parsed,
    or a put the store rejects, reaches the dispatcher, whose answer is 500
    with the message of the error in the field [error]; no table has been
    stored. *)
Theorem create_table_errors_escape svc event s e :
  ApiEvent.httpMethod event = Str "POST" ->
  ApiEvent.resource event = Str "/tables" ->
  truthy (username_of event) = true ->
  ApiEvent.body event = inl e
  \/ (exists fields,
         ApiEvent.body event = inr fields
         /\ typeof (field "number" fields) = "number"
         /\ typeof (field "places" fields) = "number"
         /\ typeof (field "isVip" fields) = "boolean"
         /\ forall item, dynamodb svc (PutTable item) = Some e) ->
  let (response, s') := handler svc event s in
  response = {| Reply.statusCode := 500;
                Reply.headers := corsHeaders;
                Reply.body :=
                  Object [ ("message", Value (Str "Internal Server Error"));
                           ("error", Value (message e)) ] |}
  /\ world s' = world s.
Proof.
  intros Hm Hr Hu Hfail. unfold handler. rewrite Hm, Hr. simpl.
  destruct Hfail as [Hb|(fields & Hb & Hn & Hp & Hv & Hput)].
  - unfold handleCreateTable, and_then, parse. rewrite Hu, Hb. simpl.
    split; reflexivity.
  - rewrite (create_table_run svc event s fields Hu Hb Hn Hp Hv), Hput.
    split; reflexivity.
Qed.

Lemma create_table_errors_escape_syntax_error :
  let event :=
    {| ApiEvent.resource := Str "/tables";
       ApiEvent.httpMethod := Str "POST";
       ApiEvent.claims := Some (Str "ann");
       ApiEvent.body := inl Cases.syntax_error;
       ApiEvent.pathParameters := inr EmptyString;
       ApiEvent.user := Undefined |} in
  let (response, s') :=
    handler Cases.services event (Cases.cloud Scenario.empty_world) in
  response = {| Reply.statusCode := 500;
                Reply.headers := corsHeaders;
                Reply.body :=
                  Object [ ("message", Value (Str "Internal Server Error"));
                           ("error",
                            Value (Str "Unexpected end of JSON input")) ] |}
  /\ world s' = Scenario.empty_world.
Proof.
  intros event.
  apply (create_table_errors_escape Cases.services event
           (Cases.cloud Scenario.empty_world) Cases.syntax_error);
    try reflexivity.
  now left.
Defined.

(** * Times that are not in order *)

(** X26: a candidate whose slotTimeStart does not come before or at its
    slotTimeEnd (the end before the start, or the two of different types) is
    neither admitted nor refused as a conflict: once its table is resolved the
    store refuses the BETWEEN of the conflict scan and the answer is 500
    "Internal Server Error"; both tables are as they were and no put is
    made. *)
Theorem unordered_times_answer rt event w b table :
  truthy (getUsernameFromToken event) = true ->
  Event.body event = Some b ->
  truthy (Body.tableNumber b) = true ->
  truthy (Body.date b) = true ->
  truthy (Body.slotTimeStart b) = true ->
  truthy (Body.slotTimeEnd b) = true ->
  store_ok rt (ScanTables (Body.tableNumber b)) = true ->
  hd_error (scan (tableParams (Body.tableNumber b)) (TABLES_TABLE (db w)))
  = Some table ->
  attr_le (Body.slotTimeStart b) (Body.slotTimeEnd b) = false ->
  let (response, w') := handleCreateReservation rt event w in
  Response.statusCode response = 500%Z
  /\ Response.body response = [("message", Str "Internal Server Error")]
  /\ db w' = db w
  /\ filter is_write (new_calls w w') = [].
Proof.
  intros Hu Hb Hn Hd Hs He Hok Ht Hwf.
  rewrite (refused_between_run rt event w b table Hu Hb Hn Hd Hs He Hok Ht Hwf).
  repeat split.
  unfold scanned, record_call. simpl. rewrite <- app_assoc.
  now rewrite new_calls_app.
Qed.

(** 18:30-17:00 on table 5. *)
Lemma unordered_times_answer_inverted :
  let (response, w') :=
    handleCreateReservation Scenario.rt (Scenario.event Scenario.inverted)
                            Scenario.booked_world in
  Response.statusCode response = 500%Z
  /\ Response.body response = [("message", Str "Internal Server Error")]
  /\ db w' = db Scenario.booked_world
  /\ filter is_write (new_calls Scenario.booked_world w') = [].
Proof.
  apply (unordered_times_answer Scenario.rt (Scenario.event Scenario.inverted)
           Scenario.booked_world Scenario.inverted Scenario.table5);
    reflexivity.
Defined.
